(** * TodoList: the task model and the class-based views of [todoapp]

    A shallow embedding of [todoapp/models.py] and [todoapp/views.py].
    The database tables are lists of rows in insertion order, every view
    is a function from the database and the request to a response and a
    new database.  The parts of the generic views the application
    inherits (dispatch, the login gate, object lookup, model forms) are
    written out next to the classes that use them. *)

From Stdlib Require Import NArith String Ascii DecimalString.
From stdpp Require Import base decidable option list strings sorting.

Local Open Scope string_scope.
Local Open Scope N_scope.

(** ** [django.contrib.auth.models.User] *)

Module User.
Record t : Type := mk {
  pk : N;
  username : string;
  password : string
}.
End User.

(** ** todoapp/models.py *)

Definition PRIORITY_CHOICES : list (string * string) :=
  [("High", "High"); ("Medium", "Medium"); ("Low", "Low")].

Definition STATUS_CHOICES : list (string * string) :=
  [("Pending", "Pending"); ("Completed", "Completed")].

(** [dict(CHOICES).keys()]: the stored values a choice field declares. *)
Definition keys (choices : list (string * string)) : list string :=
  choices.*1.

Module Task.
(** A row of [todoapp_task].  [user] is the foreign key column
    ([null=True]), [title] and [description] are nullable. *)
Record t : Type := mk {
  pk : N;
  user : option N;
  title : option string;
  description : option string;
  status : string;
  created : N;
  priority : string
}.

Definition default_status : string := "Incomplete".
Definition default_priority : string := "Medium".

(** [Task()]: an unsaved instance with the declared defaults.  The
    key and [created] are unset (written 0) until the row is inserted. *)
Definition new : t :=
  {| pk := 0; user := None; title := None; description := None;
     status := default_status; created := 0;
     priority := default_priority |}.

Definition set_pk (v : N) (self : t) : t :=
  mk v (user self) (title self) (description self) (status self)
     (created self) (priority self).
Definition set_user (v : option N) (self : t) : t :=
  mk (pk self) v (title self) (description self) (status self)
     (created self) (priority self).
Definition set_title (v : option string) (self : t) : t :=
  mk (pk self) (user self) v (description self) (status self)
     (created self) (priority self).
Definition set_description (v : option string) (self : t) : t :=
  mk (pk self) (user self) (title self) v (status self)
     (created self) (priority self).
Definition set_status (v : string) (self : t) : t :=
  mk (pk self) (user self) (title self) (description self) v
     (created self) (priority self).
Definition set_created (v : N) (self : t) : t :=
  mk (pk self) (user self) (title self) (description self) (status self)
     v (priority self).
Definition set_priority (v : string) (self : t) : t :=
  mk (pk self) (user self) (title self) (description self) (status self)
     (created self) v.

(** [Task.__str__] *)
Definition __str__ (self : t) : option string := title self.
End Task.

Global Instance User_eq_dec : EqDecision User.t.
Proof. solve_decision. Defined.

Global Instance Task_eq_dec : EqDecision Task.t.
Proof. solve_decision. Defined.

(** ** The database *)

Record Database : Type := mkDatabase {
  auth_user : list User.t;
  auth_user_seq : N;
  todoapp_task : list Task.t;
  todoapp_task_seq : N
}.

Definition empty_database : Database :=
  {| auth_user := []; auth_user_seq := 1;
     todoapp_task := []; todoapp_task_seq := 1 |}.

(** Keyword arguments of [Task.objects.create]; an omitted keyword is
    [None] and takes the field's default. *)
Record TaskKwargs : Type := mkTaskKwargs {
  kw_user : option User.t;
  kw_title : option string;
  kw_description : option string;
  kw_status : option string;
  kw_priority : option string
}.

(** [Task(user=..., title=..., ...)]: the keywords given overwrite the
    defaults of [Task()]. *)
Definition Task_init (kw : TaskKwargs) : Task.t :=
  Task.set_priority (default Task.default_priority (kw_priority kw))
    (Task.set_status (default Task.default_status (kw_status kw))
      (Task.set_description (kw_description kw)
        (Task.set_title (kw_title kw)
          (Task.set_user (User.pk <$> kw_user kw) Task.new)))).

(** [Model.save()] on an unsaved instance, [INSERT INTO todoapp_task]:
    the row gets the next key of the sequence and the time of the insert
    ([auto_now_add]) and is appended to the table. *)
Definition insert_task (now : N) (obj : Task.t) (db : Database)
  : Task.t * Database :=
  let row := Task.set_created now (Task.set_pk (todoapp_task_seq db) obj) in
  (row,
   {| auth_user := auth_user db;
      auth_user_seq := auth_user_seq db;
      todoapp_task := (todoapp_task db ++ [row])%list;
      todoapp_task_seq := N.succ (todoapp_task_seq db) |}).

(** [Task.objects.create] with keyword arguments [kw], at time [now]. *)
Definition Task_objects_create (now : N) (kw : TaskKwargs) (db : Database)
  : Task.t * Database :=
  insert_task now (Task_init kw) db.

(** [User.objects.create_user(username, password)] *)
Definition User_objects_create_user (username password : string) (db : Database)
  : User.t * Database :=
  let u := {| User.pk := auth_user_seq db;
              User.username := username;
              User.password := password |} in
  (u,
   {| auth_user := (auth_user db ++ [u])%list;
      auth_user_seq := N.succ (auth_user_seq db);
      todoapp_task := todoapp_task db;
      todoapp_task_seq := todoapp_task_seq db |}).

(** *** Query sets over [todoapp_task] *)

Abbreviation QuerySet := (list Task.t).

(** [Task.objects.all()]: the table scan, rows in insertion order. *)
Definition objects_all (db : Database) : QuerySet := todoapp_task db.

(** [queryset.filter(user=u)]: the rows whose [user_id] is [u]'s key.
    A NULL [user_id] matches no user. *)
Definition filter_user (u : User.t) (qs : QuerySet) : QuerySet :=
  filter (λ t, Task.user t = Some (User.pk u)) qs.

(** [queryset.filter(pk=k)] *)
Definition filter_pk (k : N) (qs : QuerySet) : QuerySet :=
  filter (λ t, Task.pk t = k) qs.

(** [queryset.filter(pk=k).get()]; [None] is [DoesNotExist]. *)
Definition get_pk (k : N) (qs : QuerySet) : option Task.t :=
  head (filter_pk k qs).

(** [UPDATE todoapp_task SET ... WHERE id = obj.pk]: [Model.save()] on an
    object that was read from the table. *)
Definition update_task (obj : Task.t) (db : Database) : Database :=
  {| auth_user := auth_user db;
     auth_user_seq := auth_user_seq db;
     todoapp_task :=
       (λ r, if decide (Task.pk r = Task.pk obj) then obj else r)
         <$> todoapp_task db;
     todoapp_task_seq := todoapp_task_seq db |}.

(** [DELETE FROM todoapp_task WHERE id = k]: [Model.delete()]. *)
Definition delete_task (k : N) (db : Database) : Database :=
  {| auth_user := auth_user db;
     auth_user_seq := auth_user_seq db;
     todoapp_task := filter (λ r, Task.pk r ≠ k) (todoapp_task db);
     todoapp_task_seq := todoapp_task_seq db |}.

(** ** URLs *)

(** The named routes of the task views; the key in a route is the
    [pk] keyword argument of the view. *)
Inductive Route : Type :=
  | task
  | tasks_detail (pk : N)
  | task_create
  | task_update (pk : N)
  | task_delete (pk : N).

(** [str(pk)] *)
Definition str (n : N) : string := NilEmpty.string_of_uint (N.to_uint n).

(** Modelled from the spec: the URL configuration ([urls.py]) is not
    part of the sources; the paths are those of the route table of the
    specification, which are the paths the test suite expects. *)
Definition reverse (r : Route) : string :=
  match r with
  | task => "/"
  | tasks_detail k => "/task/" +:+ str k +:+ "/"
  | task_create => "/task-create/"
  | task_update k => "/task-update/" +:+ str k +:+ "/"
  | task_delete k => "/task-delete/" +:+ str k +:+ "/"
  end.

(** Modelled from the spec: the path of the [register] route. *)
Definition reverse_register : string := "/register/".

(** Modelled from the spec: [settings.LOGIN_URL], the path of the
    [login] route. *)
Definition LOGIN_URL : string := "/login/".

(** *** [urllib.parse.quote(s, safe="/")] *)

Definition always_safe (c : ascii) : bool :=
  let n := N_of_ascii c in
  ((65 <=? n) && (n <=? 90)) || ((97 <=? n) && (n <=? 122))
  || ((48 <=? n) && (n <=? 57))
  || bool_decide (c ∈ ["_"; "."; "-"; "~"]%char).

Definition hex_digit (n : N) : ascii :=
  if n <? 10 then ascii_of_N (48 + n) else ascii_of_N (55 + n).

Definition quote_char (c : ascii) : string :=
  if always_safe c || bool_decide (c = "/"%char) then String c ""
  else
    let n := N_of_ascii c in
    String "%" (String (hex_digit (n / 16)) (String (hex_digit (n mod 16)) "")).

Fixpoint quote (s : string) : string :=
  match s with
  | "" => ""
  | String c s' => quote_char c +:+ quote s'
  end.

(** [redirect_to_login(next, login_url)]: the login URL with the query
    [next=<quoted next>]. *)
Definition redirect_to_login_url (next login_url : string) : string :=
  login_url +:+ "?next=" +:+ quote next.

(** ** Requests and responses *)

Inductive Method : Type := GET | POST.

(** [request.POST]: the submitted pairs in order; a key may repeat. *)
Abbreviation QueryDict := (list (string * string)).

(** [QueryDict.get(key)]: the last value submitted under [key]. *)
Definition QueryDict_get (key : string) (d : QueryDict) : option string :=
  snd <$> last (filter (λ kv, kv.1 = key) d).

Module HttpRequest.
(** [path] is the requested path (requests carry no query string);
    [user = None] is the [AnonymousUser]; [now] is the clock reading
    [auto_now_add] takes while the request is served. *)
Record t : Type := mk {
  method : Method;
  path : string;
  user : option User.t;
  POST : QueryDict;
  now : N
}.

Definition get_full_path (request : t) : string := path request.

Definition set_POST (data : QueryDict) (request : t) : t :=
  mk (method request) (path request) (user request) data (now request).

Definition is_authenticated (request : t) : bool :=
  bool_decide (is_Some (user request)).
End HttpRequest.

Inductive FieldError : Type :=
  | required
  | invalid_choice
  | max_length
  | null_characters_not_allowed.

(** [form.errors]: the fields that failed, each with its errors. *)
Abbreviation ErrorDict := (list (string * list FieldError)).

Inductive Context : Type :=
  | list_context (object_list task : QuerySet)
  | object_context (object task : Task.t)
  | form_context (object : option Task.t) (errors : ErrorDict).

Inductive HttpResponse : Type :=
  | TemplateResponse (template_name : string) (context : Context)
  | HttpResponseRedirect (url : string)
  | HttpResponseNotAllowed
  | Http404.

(** ** Model forms *)

(** [str.isspace] on the characters below 128. *)
Definition isspace (c : ascii) : bool :=
  let n := N_of_ascii c in
  ((9 <=? n) && (n <=? 13)) || ((28 <=? n) && (n <=? 32)).

Fixpoint lstrip (s : string) : string :=
  match s with
  | "" => ""
  | String c s' => if isspace c then lstrip s' else s
  end.

(** [str.strip()] *)
Definition strip (s : string) : string :=
  String.rev (lstrip (String.rev (lstrip s))).

Fixpoint has_null (s : string) : bool :=
  match s with
  | "" => false
  | String c s' => bool_decide (c = "000"%char) || has_null s'
  end.

(** [forms.CharField(required, max_length, empty_value,
    strip=True).clean(raw)]: the submitted text is stripped; a missing or
    empty text is an error on a required field and [empty_value]
    otherwise; the validators run on a value that is not empty
    ([max_length] counts characters, here of ASCII text). *)
Definition CharField_clean (is_required : bool) (limit : option nat)
    (empty_value : option string) (raw : option string)
  : list FieldError + option string :=
  match strip <$> raw with
  | None | Some "" => if is_required then inl [required] else inr empty_value
  | Some value =>
      let errors :=
        ((if from_option (λ n, n <? String.length value)%nat false limit
          then [max_length] else [])
         ++ (if has_null value then [null_characters_not_allowed] else []))%list in
      match errors with
      | [] => inr (Some value)
      | _ => inl errors
      end
  end.

(** [forms.TypedChoiceField(choices, required=True).clean(raw)]: the
    value has to be one of the declared keys; there is no blank choice,
    because the model field has a default. *)
Definition ChoiceField_clean (choices : list (string * string))
    (raw : option string) : list FieldError + string :=
  match raw with
  | None | Some "" => inl [required]
  | Some value =>
      if bool_decide (value ∈ keys choices) then inr value
      else inl [invalid_choice]
  end.

(** [form.cleaned_data] of the model form over
    [fields = ["title", "description", "status", "priority"]]. *)
Record cleaned_data : Type := mk_cleaned_data {
  cleaned_title : option string;
  cleaned_description : option string;
  cleaned_status : string;
  cleaned_priority : string
}.

Definition field_errors {A} (name : string) (r : list FieldError + A)
  : ErrorDict :=
  match r with
  | inl e => [(name, e)]
  | inr _ => []
  end.

(** [form.is_valid()]: each of the four fields is read from the data
    and cleaned; the form is valid when no field has an error.  A key of
    the data that names no field of the form is never read.  The form
    field of [title] ([CharField], [null=True], not [blank]) is required
    with the null value as its empty value; that of [description]
    ([TextField], [blank=True]) is optional with the empty string as its
    empty value; those of [status] and [priority] are choice fields.
    The validation of the model that follows repeats these checks. *)
Definition full_clean (data : QueryDict) : ErrorDict + cleaned_data :=
  let t := CharField_clean true (Some 200%nat) None
             (QueryDict_get "title" data) in
  let d := CharField_clean false None (Some "")
             (QueryDict_get "description" data) in
  let s := ChoiceField_clean STATUS_CHOICES (QueryDict_get "status" data) in
  let p := ChoiceField_clean PRIORITY_CHOICES (QueryDict_get "priority" data) in
  match t, d, s, p with
  | inr t, inr d, inr s, inr p =>
      inr {| cleaned_title := t; cleaned_description := d;
             cleaned_status := s; cleaned_priority := p |}
  | _, _, _, _ =>
      inl (field_errors "title" t ++ field_errors "description" d
           ++ field_errors "status" s ++ field_errors "priority" p)%list
  end.

(** [TaskCreate.fields], [TaskUpdate.fields] *)
Definition fields : list string :=
  ["title"; "description"; "status"; "priority"].

(** [construct_instance(form, instance)]: the cleaned value of every
    field of the form is assigned to the instance. *)
Definition construct_instance (form : cleaned_data) (instance : Task.t)
  : Task.t :=
  Task.set_priority (cleaned_priority form)
    (Task.set_status (cleaned_status form)
      (Task.set_description (cleaned_description form)
        (Task.set_title (cleaned_title form) instance))).

(** ** todoapp/views.py *)

Abbreviation View := (HttpRequest.t → Database → HttpResponse * Database).

(** [LoginRequiredMixin.dispatch]: an anonymous request is answered by
    [handle_no_permission], the redirect to the login page with the
    requested path as [next], before any handler runs; otherwise the
    view's own dispatch runs with [request.user]. *)
Definition LoginRequiredMixin_dispatch (dispatch : User.t → View) : View :=
  λ request db,
    match HttpRequest.user request with
    | None =>
        (HttpResponseRedirect
           (redirect_to_login_url (HttpRequest.get_full_path request) LOGIN_URL),
         db)
    | Some u => dispatch u request db
    end.

(** [SingleObjectMixin.get_object]: the row with the key of the URL,
    from [model = Task]'s default query set; [None] raises [Http404]. *)
Definition get_object (k : N) (db : Database) : option Task.t :=
  get_pk k (objects_all db).

(** *** [class TaskList(LoginRequiredMixin, ListView)] *)

(** [TaskList.get_context_data]: the inherited context holds the whole
    query set under [object_list] and under [context_object_name];
    the latter entry is replaced by the rows of [request.user]. *)
Definition TaskList_get_context_data (u : User.t) (db : Database) : Context :=
  let object_list := objects_all db in
  list_context object_list (filter_user u object_list).

Definition TaskList_get (u : User.t) : View := λ request db,
  (TemplateResponse "todoapp/task_list.html" (TaskList_get_context_data u db),
   db).

Definition TaskList_as_view : View :=
  LoginRequiredMixin_dispatch (λ u request db,
    match HttpRequest.method request with
    | GET => TaskList_get u request db
    | POST => (HttpResponseNotAllowed, db)
    end).

(** *** [class TaskDetail(LoginRequiredMixin, DetailView)] *)

Definition TaskDetail_get (k : N) (u : User.t) : View := λ request db,
  match get_object k db with
  | None => (Http404, db)
  | Some obj => (TemplateResponse "todoapp/task.html" (object_context obj obj), db)
  end.

Definition TaskDetail_as_view (k : N) : View :=
  LoginRequiredMixin_dispatch (λ u request db,
    match HttpRequest.method request with
    | GET => TaskDetail_get k u request db
    | POST => (HttpResponseNotAllowed, db)
    end).

(** *** [class TaskCreate(LoginRequiredMixin, CreateView)] *)

Definition TaskCreate_success_url : string := reverse task.

(** [TaskCreate.form_valid]: [form.instance.user = self.request.user],
    then the inherited [form_valid] saves the instance and redirects to
    [success_url]. *)
Definition TaskCreate_form_valid (u : User.t) (form : cleaned_data) : View :=
  λ request db,
    let instance := Task.set_user (Some (User.pk u))
                      (construct_instance form Task.new) in
    let '(_, db') := insert_task (HttpRequest.now request) instance db in
    (HttpResponseRedirect TaskCreate_success_url, db').

Definition TaskCreate_get (u : User.t) : View := λ request db,
  (TemplateResponse "todoapp/task_form.html" (form_context None []), db).

Definition TaskCreate_post (u : User.t) : View := λ request db,
  match full_clean (HttpRequest.POST request) with
  | inr form => TaskCreate_form_valid u form request db
  | inl errors =>
      (TemplateResponse "todoapp/task_form.html" (form_context None errors), db)
  end.

Definition TaskCreate_as_view : View :=
  LoginRequiredMixin_dispatch (λ u request db,
    match HttpRequest.method request with
    | GET => TaskCreate_get u request db
    | POST => TaskCreate_post u request db
    end).

(** *** [class TaskUpdate(LoginRequiredMixin, UpdateView)] *)

Definition TaskUpdate_success_url : string := reverse task.

Definition TaskUpdate_get (k : N) (u : User.t) : View := λ request db,
  match get_object k db with
  | None => (Http404, db)
  | Some obj =>
      (TemplateResponse "todoapp/task_form.html" (form_context (Some obj) []), db)
  end.

(** The inherited [post]: the object of the URL is the form's instance;
    a valid form is saved over it. *)
Definition TaskUpdate_post (k : N) (u : User.t) : View := λ request db,
  match get_object k db with
  | None => (Http404, db)
  | Some obj =>
      match full_clean (HttpRequest.POST request) with
      | inr form =>
          (HttpResponseRedirect TaskUpdate_success_url,
           update_task (construct_instance form obj) db)
      | inl errors =>
          (TemplateResponse "todoapp/task_form.html"
             (form_context (Some obj) errors), db)
      end
  end.

Definition TaskUpdate_as_view (k : N) : View :=
  LoginRequiredMixin_dispatch (λ u request db,
    match HttpRequest.method request with
    | GET => TaskUpdate_get k u request db
    | POST => TaskUpdate_post k u request db
    end).

(** *** [class TaskDelete(LoginRequiredMixin, DeleteView)] *)

Definition TaskDelete_success_url : string := reverse task.

Definition TaskDelete_get (k : N) (u : User.t) : View := λ request db,
  match get_object k db with
  | None => (Http404, db)
  | Some obj =>
      (TemplateResponse "todoapp/task_confirm_delete.html"
         (object_context obj obj), db)
  end.

Definition TaskDelete_post (k : N) (u : User.t) : View := λ request db,
  match get_object k db with
  | None => (Http404, db)
  | Some obj =>
      (HttpResponseRedirect TaskDelete_success_url, delete_task (Task.pk obj) db)
  end.

Definition TaskDelete_as_view (k : N) : View :=
  LoginRequiredMixin_dispatch (λ u request db,
    match HttpRequest.method request with
    | GET => TaskDelete_get k u request db
    | POST => TaskDelete_post k u request db
    end).

(** *** The URL resolver *)

Definition urlpatterns (r : Route) : View :=
  match r with
  | task => TaskList_as_view
  | tasks_detail k => TaskDetail_as_view k
  | task_create => TaskCreate_as_view
  | task_update k => TaskUpdate_as_view k
  | task_delete k => TaskDelete_as_view k
  end.

(** The URL resolver matches the path of the request to the route. *)
Definition resolves (request : HttpRequest.t) (r : Route) : Prop :=
  HttpRequest.path request = reverse r.

(** One request served: the view of the route [r] the request resolved
    to is called. *)
Definition handle (r : Route) (request : HttpRequest.t) (db : Database)
  : HttpResponse * Database :=
  urlpatterns r request db.

(** *** [class UserRegister(FormView)] *)

(** [success_url = reverse_lazy('register')] *)
Definition UserRegister_success_url : string := reverse_register.

(** [UserRegister.get]: an authenticated requester is redirected to the
    task list; otherwise the inherited [get] renders the empty form.
    The result is the response, the database and the user the session
    is bound to afterwards. *)
Definition UserRegister_get (request : HttpRequest.t) (db : Database)
  : HttpResponse * Database * option User.t :=
  if HttpRequest.is_authenticated request
  then (HttpResponseRedirect (reverse task), db, HttpRequest.user request)
  else (TemplateResponse "todoapp/register.html" (form_context None []),
        db, HttpRequest.user request).

(** [UserRegister.form_valid] on a valid [UserCreationForm] with the
    cleaned [username] and password: [form.save()] creates the user,
    [login] binds the session to it, the inherited [form_valid]
    redirects to [success_url]. *)
Definition UserRegister_form_valid (username password : string)
    (request : HttpRequest.t) (db : Database)
  : HttpResponse * Database * option User.t :=
  let '(user, db') := User_objects_create_user username password db in
  (HttpResponseRedirect UserRegister_success_url, db', Some user).

(** *** [class UserLogin(LoginView)] *)

(** [UserLogin.get_success_url] *)
Definition UserLogin_get_success_url : string := reverse task.

(** The inherited [get], with [redirect_authenticated_user = False]:
    the login form is rendered whoever asks, also to a requester who
    holds a session. *)
Definition UserLogin_get (request : HttpRequest.t) (db : Database)
  : HttpResponse * Database * option User.t :=
  (TemplateResponse "todoapp/login.html" (form_context None []),
   db, HttpRequest.user request).

(** The inherited [form_valid] on a valid authentication form whose
    user is [user]: [login] binds the session to the user and the
    response redirects to [get_success_url()], which the class
    overrides; a [next] sent with the request is not consulted. *)
Definition UserLogin_form_valid (user : User.t)
    (request : HttpRequest.t) (db : Database)
  : HttpResponse * Database * option User.t :=
  (HttpResponseRedirect UserLogin_get_success_url, db, Some user).

(** * Properties *)

Local Open Scope list_scope.

(** ** The rows of the table and their keys *)

Definition pk_lt (a b : Task.t) : Prop := Task.pk a < Task.pk b.

(** The invariant of the table: the keys grow along the rows, and the
    sequence is above every key handed out. *)
Definition wf (db : Database) : Prop :=
  StronglySorted pk_lt (todoapp_task db)
  ∧ Forall (λ t, Task.pk t < todoapp_task_seq db) (todoapp_task db).

(** The databases the application can build: starting from the empty
    one, by the model managers, by serving a request, or by a
    registration. *)
Inductive reachable : Database → Prop :=
  | reachable_empty : reachable empty_database
  | reachable_create_user username password db :
      reachable db →
      reachable (User_objects_create_user username password db).2
  | reachable_create now kw db :
      reachable db → reachable (Task_objects_create now kw db).2
  | reachable_handle r request db :
      reachable db → reachable (handle r request db).2
  | reachable_register username password request db :
      reachable db →
      reachable (UserRegister_form_valid username password request db).1.2.

(** The status and the priority of the row are declared choices. *)
Definition declared_choices (t : Task.t) : Prop :=
  Task.status t ∈ keys STATUS_CHOICES ∧ Task.priority t ∈ keys PRIORITY_CHOICES.

(** The request was served: a page was rendered, or the action was done
    and the requester sent on to the task list.  The redirect to the
    login page, [Http404] and a refused method are not. *)
Definition served (response : HttpResponse) : Prop :=
  match response with
  | TemplateResponse _ _ => True
  | HttpResponseRedirect url => url = reverse task
  | HttpResponseNotAllowed | Http404 => False
  end.

(** What the task list page shows to [u]: the [task] entry of the
    context [TaskList.get_context_data] builds. *)
Definition listed (u : User.t) (db : Database) : list Task.t :=
  match TaskList_get_context_data u db with
  | list_context _ tasks => tasks
  | _ => []
  end.

(** [evolves db db']: the application takes the database from [db] to
    [db'] by any number of operations (the model managers, requests to
    the task views, registrations). *)
Inductive evolves (db : Database) : Database → Prop :=
  | evolves_refl : evolves db db
  | evolves_create_user username password db' :
      evolves db db' →
      evolves db (User_objects_create_user username password db').2
  | evolves_create now kw db' :
      evolves db db' → evolves db (Task_objects_create now kw db').2
  | evolves_handle r request db' :
      evolves db db' → evolves db (handle r request db').2
  | evolves_register username password request db' :
      evolves db db' →
      evolves db (UserRegister_form_valid username password request db').1.2.

(** Every owner recorded in the table of tasks is a key the sequence of
    users has handed out. *)
Definition owners_known (db : Database) : Prop :=
  Forall (λ t, ∀ k, Task.user t = Some k → k < auth_user_seq db)
    (todoapp_task db).

(** The user of the request, if any, has a key the sequence of users
    has handed out. *)
Definition session_known (request : HttpRequest.t) (db : Database) : Prop :=
  ∀ u, HttpRequest.user request = Some u → User.pk u < auth_user_seq db.

(** The scenario of the test suite ([tests.py], [TaskListViewTestCase]):
    two users, two tasks of the first and one of the second; and a
    fourth task created without a user. *)
Definition testuser : User.t := User.mk 1 "testuser" "testpassword".
Definition otheruser : User.t := User.mk 2 "otheruser" "otherpassword".

Definition test_db : Database :=
  let db := (User_objects_create_user "testuser" "testpassword" empty_database).2 in
  let db := (Task_objects_create 100
               (mkTaskKwargs (Some testuser) (Some "Task 1") None None None) db).2 in
  let db := (Task_objects_create 101
               (mkTaskKwargs (Some testuser) (Some "Task 2") None None None) db).2 in
  let db := (User_objects_create_user "otheruser" "otherpassword" db).2 in
  (Task_objects_create 102
     (mkTaskKwargs (Some otheruser) (Some "Other User Task") None None None) db).2.

Definition test_db_ownerless : Database :=
  (Task_objects_create 103
     (mkTaskKwargs None (Some "Nobody's Task") None None None) test_db).2.

(** The form data of [TaskUpdateViewTestCase], with a spurious [user]
    key as a client might add it. *)
Definition task_data : QueryDict :=
  [("title", "Updated Task"); ("description", "Updated Task Description");
   ("status", "Completed"); ("priority", "High"); ("user", "2")].

(** The first task of the scenario, and what the update form of the
    test suite makes of it. *)
Definition task_1 : Task.t :=
  Task.mk 1 (Some 1) (Some "Task 1") None "Incomplete" 100 "Medium".

Definition task_1_updated : Task.t :=
  Task.mk 1 (Some 1) (Some "Updated Task") (Some "Updated Task Description")
    "Completed" 100 "High".

(** Unfolds the views down to the case analysis on the requester, the
    method, the object and the form. *)
Ltac unfold_views :=
  unfold handle, urlpatterns, TaskList_as_view, TaskDetail_as_view,
    TaskCreate_as_view, TaskUpdate_as_view, TaskDelete_as_view,
    LoginRequiredMixin_dispatch, TaskList_get, TaskDetail_get,
    TaskCreate_get, TaskCreate_post, TaskCreate_form_valid, TaskUpdate_get,
    TaskUpdate_post, TaskDelete_get, TaskDelete_post.

Global Instance pk_lt_trans : Transitive pk_lt.
Proof. unfold pk_lt. intros a b c ??. lia. Qed.

Section rows.
Implicit Types (t obj : Task.t) (qs : list Task.t) (k : N).

Lemma get_pk_Some k qs t :
  get_pk k qs = Some t → t ∈ qs ∧ Task.pk t = k.
Proof.
  unfold get_pk, filter_pk. intros H%head_Some_elem_of.
  apply list_elem_of_filter in H. tauto.
Qed.

Lemma get_pk_None k qs :
  get_pk k qs = None ↔ ∀ t, t ∈ qs → Task.pk t ≠ k.
Proof.
  unfold get_pk, filter_pk. rewrite head_None. split.
  - intros H t Ht Hk.
    assert (t ∈ filter (λ t, Task.pk t = k) qs) as Hin
      by by apply list_elem_of_filter.
    rewrite H in Hin. by apply elem_of_nil in Hin.
  - intros H. induction qs as [|x qs IH]; [done|].
    rewrite filter_cons. destruct (decide (Task.pk x = k)) as [Hx|Hx].
    + exfalso. apply (H x); [left|done].
    + apply IH. intros t Ht. apply H. by right.
Qed.

(** In a table with growing keys the key finds its own row. *)
Lemma get_pk_sorted qs t :
  StronglySorted pk_lt qs → t ∈ qs → get_pk (Task.pk t) qs = Some t.
Proof.
  unfold get_pk, filter_pk. induction 1 as [|x qs Hs IH Hx]; intros Ht.
  - by apply elem_of_nil in Ht.
  - rewrite filter_cons. apply elem_of_cons in Ht as [->|Ht].
    + by rewrite decide_True.
    + rewrite decide_False; [by apply IH|].
      rewrite Forall_forall in Hx. specialize (Hx t Ht).
      unfold pk_lt in Hx. lia.
Qed.

Lemma filter_pk_fmap (f : Task.t → Task.t) k qs :
  (∀ t, Task.pk (f t) = Task.pk t) →
  filter_pk k (f <$> qs) = f <$> filter_pk k qs.
Proof.
  intros Hf. unfold filter_pk. induction qs as [|x qs IH]; [done|].
  rewrite fmap_cons, !filter_cons, Hf.
  destruct (decide (Task.pk x = k)); by rewrite ?fmap_cons, IH.
Qed.

Lemma fmap_pk_fmap (f : Task.t → Task.t) qs :
  (∀ t, Task.pk (f t) = Task.pk t) →
  Task.pk <$> (f <$> qs) = Task.pk <$> qs.
Proof.
  intros Hf. rewrite <- list_fmap_compose. apply list_fmap_ext.
  intros i x _. apply Hf.
Qed.

Lemma get_object_update_task k obj obj' db :
  get_object k db = Some obj → Task.pk obj' = k →
  get_object k (update_task obj' db) = Some obj'.
Proof.
  unfold get_object, objects_all, update_task. simpl. intros Hget Hk.
  pose proof (get_pk_Some _ _ _ Hget) as [_ Hobj].
  unfold get_pk in *. rewrite filter_pk_fmap by (intros; by case_decide).
  destruct (filter_pk k (todoapp_task db)) as [|x rest]; [done|].
  injection Hget as ->. simpl. rewrite decide_True; congruence.
Qed.

Lemma get_object_update_task_ne j obj' db :
  j ≠ Task.pk obj' →
  get_object j (update_task obj' db) = get_object j db.
Proof.
  unfold get_object, objects_all, update_task, get_pk. simpl. intros Hj.
  rewrite filter_pk_fmap by (intros; by case_decide). f_equal.
  rewrite <- (list_fmap_id (filter_pk j (todoapp_task db))) at 2.
  apply list_fmap_ext. intros i x Hx%list_elem_of_lookup_2.
  apply list_elem_of_filter in Hx as [Hx _]. simpl.
  rewrite decide_False; congruence.
Qed.

Lemma get_object_delete_task k db : get_object k (delete_task k db) = None.
Proof.
  unfold get_object, objects_all, delete_task. simpl.
  apply get_pk_None. by intros t [Ht _]%list_elem_of_filter.
Qed.

Lemma get_object_delete_task_ne j k db :
  j ≠ k → get_object j (delete_task k db) = get_object j db.
Proof.
  unfold get_object, objects_all, delete_task, get_pk, filter_pk. simpl.
  intros Hj. f_equal. induction (todoapp_task db) as [|x l IH]; [done|].
  rewrite !filter_cons.
  repeat case_decide; rewrite ?filter_cons; repeat case_decide;
    congruence || lia.
Qed.
End rows.

(** ** The invariant is kept by every operation *)

Section invariant.
Implicit Types (db : Database) (obj : Task.t).

Lemma StronglySorted_filter {A} (R : relation A) (P : A → Prop)
    `{!∀ x, Decision (P x)} (l : list A) :
  StronglySorted R l → StronglySorted R (filter P l).
Proof.
  induction 1 as [|x l Hs IH Hx]; [constructor|].
  rewrite filter_cons. case_decide; [|done].
  constructor; [done|].
  rewrite Forall_forall in Hx |- *.
  intros y [_ Hy]%list_elem_of_filter. auto.
Qed.

Lemma Forall_filter_weaken {A} (Q P : A → Prop)
    `{!∀ x, Decision (P x)} (l : list A) :
  Forall Q l → Forall Q (filter P l).
Proof.
  rewrite !Forall_forall. intros Hall y [_ Hy]%list_elem_of_filter. auto.
Qed.

Lemma wf_empty : wf empty_database.
Proof. split; constructor. Qed.

Lemma wf_insert_task now obj db : wf db → wf (insert_task now obj db).2.
Proof.
  intros [Hs Hb]. split; simpl.
  - apply StronglySorted_app_2; [|done|repeat constructor].
    intros x1 x2 H1 ->%list_elem_of_singleton.
    rewrite Forall_forall in Hb. unfold pk_lt. simpl. auto.
  - apply Forall_app. split.
    + eapply Forall_impl; [exact Hb|]. simpl. intros; lia.
    + repeat constructor. simpl. lia.
Qed.

Lemma wf_update_task obj db : wf db → wf (update_task obj db).
Proof.
  intros [Hs Hb]. split; simpl.
  - eapply StronglySorted_fmap; [|exact Hs].
    unfold pk_lt. intros x y. repeat case_decide; lia.
  - apply Forall_fmap. eapply Forall_impl; [exact Hb|].
    intros x. simpl. case_decide; congruence.
Qed.

Lemma wf_delete_task k db : wf db → wf (delete_task k db).
Proof.
  intros [Hs Hb]. split; simpl.
  - by apply StronglySorted_filter.
  - by apply Forall_filter_weaken.
Qed.

Lemma wf_create_user username password db :
  wf db → wf (User_objects_create_user username password db).2.
Proof. by intros [??]. Qed.

(** Serving a request keeps the invariant, whatever the request. *)
Lemma wf_handle r request db : wf db → wf (handle r request db).2.
Proof.
  intros Hwf. unfold_views.
  destruct r as [|k| |k|k], (HttpRequest.user request) as [u|],
    (HttpRequest.method request); try done.
  all: try (destruct (get_object k db); [|done]).
  all: try (destruct (full_clean (HttpRequest.POST request)); [done|]).
  all: try done.
  - by apply (wf_insert_task (HttpRequest.now request)).
  - by apply wf_update_task.
  - by apply wf_delete_task.
Qed.

Lemma reachable_wf db : reachable db → wf db.
Proof.
  induction 1 as [|username password db _ IH|now kw db _ IH
                 |r request db _ IH|username password request db _ IH].
  - apply wf_empty.
  - by apply wf_create_user.
  - by apply wf_insert_task.
  - by apply wf_handle.
  - by apply (wf_create_user username password).
Qed.
End invariant.

(** ** URL quoting leaves the paths of the routes as they are *)

Section quoting.
Lemma string_app_cons (x : ascii) (a b : string) :
  String x a +:+ b = String x (a +:+ b).
Proof. reflexivity. Qed.

Lemma string_app_assoc (a b c : string) : (a +:+ b) +:+ c = a +:+ (b +:+ c).
Proof.
  induction a as [|x a IH]; [done|].
  by rewrite !string_app_cons, IH.
Qed.

Lemma quote_app (a b : string) : quote (a +:+ b) = quote a +:+ quote b.
Proof.
  induction a as [|x a IH]; [done|].
  rewrite string_app_cons. simpl quote.
  by rewrite IH, string_app_assoc.
Qed.

Lemma quote_string_of_uint (d : Decimal.uint) :
  quote (NilEmpty.string_of_uint d) = NilEmpty.string_of_uint d.
Proof. induction d as [|d IH|d IH|d IH|d IH|d IH|d IH|d IH|d IH|d IH|d IH];
  simpl; [done|by rewrite IH..]. Qed.

Lemma quote_str (n : N) : quote (str n) = str n.
Proof. apply quote_string_of_uint. Qed.

Lemma quote_reverse (r : Route) : quote (reverse r) = reverse r.
Proof.
  destruct r; simpl reverse; rewrite ?quote_app, ?quote_str; reflexivity.
Qed.
End quoting.

(** ** The scenario of the test suite *)

Lemma test_db_reachable : reachable test_db.
Proof.
  unfold test_db. cbv zeta.
  apply reachable_create, reachable_create_user, reachable_create,
    reachable_create, reachable_create_user, reachable_empty.
Qed.

Lemma test_db_ownerless_reachable : reachable test_db_ownerless.
Proof. apply reachable_create, test_db_reachable. Qed.

(** The assertions of [tests.py] that concern the task views, on the
    scenario. *)

Example test_default_status_and_priority :
  let task :=
    (Task_objects_create 100
       (mkTaskKwargs (Some testuser) (Some "Default Task")
          (Some "Default Description") None None) empty_database).1 in
  Task.status task = "Incomplete" ∧ Task.priority task = "Medium".
Proof. by vm_compute. Qed.

Example test_task_list_authenticated_user :
  (handle task (HttpRequest.mk GET "/" (Some testuser) [] 200) test_db).1
  = TemplateResponse "todoapp/task_list.html"
      (list_context (todoapp_task test_db)
         [task_1;
          Task.mk 2 (Some 1) (Some "Task 2") None "Incomplete" 101 "Medium"]).
Proof. by vm_compute. Qed.

Example test_task_list_unauthenticated_user :
  (handle task (HttpRequest.mk GET "/" None [] 200) test_db).1
  = HttpResponseRedirect "/login/?next=/".
Proof. by vm_compute. Qed.

Example test_task_detail_authenticated_user :
  (handle (tasks_detail 1)
     (HttpRequest.mk GET "/task/1/" (Some testuser) [] 200) test_db).1
  = TemplateResponse "todoapp/task.html" (object_context task_1 task_1).
Proof. by vm_compute. Qed.

Example test_task_detail_unauthenticated_user :
  (handle (tasks_detail 1) (HttpRequest.mk GET "/task/1/" None [] 200) test_db).1
  = HttpResponseRedirect "/login/?next=/task/1/".
Proof. by vm_compute. Qed.

Example test_task_create_authenticated_user :
  (handle task_create
     (HttpRequest.mk POST "/task-create/" (Some testuser) task_data 200)
     test_db).1
  = HttpResponseRedirect "/".
Proof. by vm_compute. Qed.

Example test_task_create_unauthenticated_user :
  (handle task_create
     (HttpRequest.mk POST "/task-create/" None task_data 200) test_db).1
  = HttpResponseRedirect "/login/?next=/task-create/".
Proof. by vm_compute. Qed.

Example test_task_update_authenticated_user :
  (handle (task_update 1)
     (HttpRequest.mk POST "/task-update/1/" (Some testuser) task_data 200)
     test_db).1
  = HttpResponseRedirect "/".
Proof. by vm_compute. Qed.

Example test_task_update_unauthenticated_user :
  (handle (task_update 1)
     (HttpRequest.mk POST "/task-update/1/" None task_data 200) test_db).1
  = HttpResponseRedirect "/login/?next=/task-update/1/".
Proof. by vm_compute. Qed.

Example test_task_delete_authenticated_user :
  (handle (task_delete 1)
     (HttpRequest.mk POST "/task-delete/1/" (Some testuser) [] 200) test_db).1
  = HttpResponseRedirect "/".
Proof. by vm_compute. Qed.

Example test_task_delete_unauthenticated_user :
  (handle (task_delete 1)
     (HttpRequest.mk POST "/task-delete/1/" None [] 200) test_db).1
  = HttpResponseRedirect "/login/?next=/task-delete/1/".
Proof. by vm_compute. Qed.

Example test_register_authenticated_user :
  (UserRegister_get
     (HttpRequest.mk GET "/register/" (Some testuser) [] 200) test_db).1.1
  = HttpResponseRedirect "/".
Proof. by vm_compute. Qed.

(** ** Model forms read the fields of the form and nothing else *)

Section forms.
Implicit Types (data : QueryDict) (form : cleaned_data).

Lemma QueryDict_get_cons_ne name key v data :
  key ≠ name →
  QueryDict_get name ((key, v) :: data) = QueryDict_get name data.
Proof.
  intros Hne. unfold QueryDict_get. by rewrite filter_cons_False.
Qed.

Lemma full_clean_cons_other key v data :
  key ∉ fields → full_clean ((key, v) :: data) = full_clean data.
Proof.
  intros Hkey. unfold full_clean.
  rewrite !QueryDict_get_cons_ne; [done|..];
    intros ->; apply Hkey; unfold fields;
    repeat first [by left | right].
Qed.

Lemma ChoiceField_clean_inr choices raw value :
  ChoiceField_clean choices raw = inr value → value ∈ keys choices.
Proof.
  unfold ChoiceField_clean. destruct raw as [[|c raw]|]; try done.
  case_bool_decide; [|done]. by intros [= <-].
Qed.

Lemma full_clean_inr data form :
  full_clean data = inr form →
  cleaned_status form ∈ keys STATUS_CHOICES
  ∧ cleaned_priority form ∈ keys PRIORITY_CHOICES.
Proof.
  unfold full_clean.
  destruct (CharField_clean true _ _ _), (CharField_clean false _ _ _);
  try done;
    destruct (ChoiceField_clean STATUS_CHOICES _) as [|s] eqn:Es; try done;
    destruct (ChoiceField_clean PRIORITY_CHOICES _) as [|p] eqn:Ep; try done.
  intros [= <-]. cbn [cleaned_status cleaned_priority].
  split; eapply ChoiceField_clean_inr; eassumption.
Qed.
End forms.

(** ** What the views answer *)

Section views.
Implicit Types (r : Route) (request : HttpRequest.t) (db : Database).

(** Only the task list renders a list of tasks, and each task on it
    belongs to the user of the request. *)
Lemma list_context_owned r request db template_name object_list tasks t :
  (handle r request db).1
  = TemplateResponse template_name (list_context object_list tasks) →
  t ∈ tasks →
  ∃ u, HttpRequest.user request = Some u ∧ Task.user t = Some (User.pk u).
Proof.
  unfold_views.
  destruct r as [|k| |k|k], (HttpRequest.user request) as [u|],
    (HttpRequest.method request); try done.
  all: try (destruct (get_object k db); [|done]).
  all: try (destruct (full_clean (HttpRequest.POST request)); done).
  simpl. intros [= _ _ <-]. unfold filter_user.
  intros [Ht _]%list_elem_of_filter. eauto.
Qed.

(** The login redirect never leads to the task list. *)
Lemma login_redirect_not_served next :
  ¬ served (HttpResponseRedirect (redirect_to_login_url next LOGIN_URL)).
Proof. simpl. discriminate. Qed.

(** A view that looks its object up serves the request only when the
    requester is authenticated and the object exists. *)
Lemma by_id_served r k request db :
  r ∈ [tasks_detail k; task_update k; task_delete k] →
  served (handle r request db).1 →
  is_Some (HttpRequest.user request) ∧ is_Some (get_object k db).
Proof.
  intros Hr. unfold_views.
  assert (r = tasks_detail k ∨ r = task_update k ∨ r = task_delete k)
    as [->|[->| ->]].
  { rewrite !elem_of_cons in Hr. destruct Hr as [|[|[|Hr]]]; auto.
    by apply elem_of_nil in Hr. }
  all: destruct (HttpRequest.user request) as [u|];
    [|by intros []%login_redirect_not_served].
  all: destruct (HttpRequest.method request), (get_object k db); try done.
Qed.

(** What a request changes in the table of tasks. *)
Lemma handle_cases r request db :
  (handle r request db).2 = db
  ∨ (∃ u form,
       r = task_create ∧ HttpRequest.user request = Some u
       ∧ HttpRequest.method request = POST
       ∧ full_clean (HttpRequest.POST request) = inr form
       ∧ handle r request db
         = (HttpResponseRedirect "/",
            (insert_task (HttpRequest.now request)
               (Task.set_user (Some (User.pk u))
                  (construct_instance form Task.new)) db).2))
  ∨ (∃ k obj form,
       r = task_update k ∧ is_Some (HttpRequest.user request)
       ∧ HttpRequest.method request = POST
       ∧ get_object k db = Some obj
       ∧ full_clean (HttpRequest.POST request) = inr form
       ∧ handle r request db
         = (HttpResponseRedirect "/",
            update_task (construct_instance form obj) db))
  ∨ (∃ k obj,
       r = task_delete k ∧ is_Some (HttpRequest.user request)
       ∧ HttpRequest.method request = POST
       ∧ get_object k db = Some obj
       ∧ handle r request db
         = (HttpResponseRedirect "/", delete_task k db)).
Proof.
  unfold_views.
  destruct r as [|k| |k|k], (HttpRequest.user request) as [u|] eqn:Hu,
    (HttpRequest.method request) eqn:Hm; auto.
  all: try (destruct (get_object k db) as [obj|] eqn:Hobj; auto).
  all: try (destruct (full_clean (HttpRequest.POST request))
              as [errors|form] eqn:Hform; auto).
  all: try (right; left; by exists u, form).
  all: try (right; right; left; exists k, obj, form; by repeat split).
  all: right; right; right; exists k, obj.
  all: apply get_pk_Some in Hobj as Hk; destruct Hk as [_ ->].
  all: by repeat split.
Qed.
End views.

(** ** The claims *)

(** C5: a task created with only [title] and [description] given (the
    test suite also gives the user) is stored with priority ['Medium']
    and status ['Incomplete'], and ['Incomplete'] is not one of the
    declared status choices, which are ['Pending'] and ['Completed']. *)
Theorem default_status_and_priority
    (now : N) (user : option User.t) (title description : option string)
    (db : Database) :
  let kw := mkTaskKwargs user title description None None in
  let task := (Task_objects_create now kw db).1 in
  todoapp_task (Task_objects_create now kw db).2 = todoapp_task db ++ [task]
  ∧ Task.title task = title
  ∧ Task.description task = description
  ∧ Task.priority task = "Medium"
  ∧ Task.status task = "Incomplete"
  ∧ ("Incomplete" ∉ keys STATUS_CHOICES)
  ∧ keys STATUS_CHOICES = ["Pending"; "Completed"].
Proof.
  simpl. repeat split.
  intros H. repeat (apply elem_of_cons in H as [H|H]; [discriminate H|]).
  by apply elem_of_nil in H.
Qed.

(** C6: a request without a session to any of the protected routes
    (list, detail, create, update, delete), with any method and any
    form data, is answered by the redirect to
    [/login/?next=<the requested path>], and the database is left as it
    was. *)
Theorem anonymous_request_redirected_to_login
    (r : Route) (request : HttpRequest.t) (db : Database) :
  resolves request r →
  HttpRequest.user request = None →
  handle r request db
  = (HttpResponseRedirect ("/login/?next=" +:+ HttpRequest.path request), db).
Proof.
  intros Hpath Hanon. unfold handle, urlpatterns.
  assert (∀ dispatch, LoginRequiredMixin_dispatch dispatch request db
          = (HttpResponseRedirect
               ("/login/?next=" +:+ HttpRequest.path request), db))
    as Hgate.
  { intros dispatch. unfold LoginRequiredMixin_dispatch. rewrite Hanon.
    unfold redirect_to_login_url, HttpRequest.get_full_path.
    by rewrite Hpath, quote_reverse. }
  destruct r; apply Hgate.
Qed.

Lemma anonymous_request_redirected_to_login_witness :
  handle (task_update 1)
    (HttpRequest.mk POST "/task-update/1/" None task_data 200) test_db
  = (HttpResponseRedirect "/login/?next=/task-update/1/", test_db).
Proof.
  exact (anonymous_request_redirected_to_login (task_update 1)
           (HttpRequest.mk POST "/task-update/1/" None task_data 200) test_db
           eq_refl eq_refl).
Defined.

(** C8: a GET of [register] by a requester who holds a session is
    answered by the redirect to the task list; no form is rendered or
    processed, the database (and with it the table of users) and the
    session are left as they were. *)
Theorem UserRegister_get_authenticated
    (u : User.t) (request : HttpRequest.t) (db : Database) :
  HttpRequest.user request = Some u →
  UserRegister_get request db = (HttpResponseRedirect "/", db, Some u).
Proof.
  intros Hu. unfold UserRegister_get, HttpRequest.is_authenticated.
  rewrite Hu. by rewrite bool_decide_eq_true_2.
Qed.

Lemma UserRegister_get_authenticated_witness :
  UserRegister_get (HttpRequest.mk GET "/register/" (Some testuser) [] 200) test_db
  = (HttpResponseRedirect "/", test_db, Some testuser).
Proof.
  exact (UserRegister_get_authenticated testuser
           (HttpRequest.mk GET "/register/" (Some testuser) [] 200) test_db eq_refl).
Defined.

(** C1: the task list page of an authenticated user shows, under
    [task], exactly the rows of the table whose owner is that user, no
    row of another owner, in the order of the table, which is the order
    of creation: the keys handed out by the sequence grow along it.  (The
    inherited [object_list] entry of the context is the whole table.) *)
Theorem TaskList_lists_own_tasks_in_creation_order
    (u : User.t) (request : HttpRequest.t) (db : Database) :
  wf db →
  HttpRequest.user request = Some u →
  HttpRequest.method request = GET →
  ∃ tasks,
    handle task request db
    = (TemplateResponse "todoapp/task_list.html"
         (list_context (todoapp_task db) tasks), db)
    ∧ (∀ t, t ∈ tasks ↔ t ∈ todoapp_task db ∧ Task.user t = Some (User.pk u))
    ∧ tasks `sublist_of` todoapp_task db
    ∧ StronglySorted pk_lt tasks.
Proof.
  intros [Hs _] Hu Hget.
  exists (filter_user u (objects_all db)).
  unfold handle, urlpatterns, TaskList_as_view, LoginRequiredMixin_dispatch.
  rewrite Hu, Hget. split; [done|]. unfold filter_user, objects_all.
  split; [|split].
  - intros t. rewrite list_elem_of_filter. tauto.
  - apply sublist_filter.
  - by apply StronglySorted_filter.
Qed.

Lemma TaskList_lists_own_tasks_in_creation_order_witness :
  ∃ tasks,
    handle task (HttpRequest.mk GET "/" (Some testuser) [] 200) test_db
    = (TemplateResponse "todoapp/task_list.html"
         (list_context (todoapp_task test_db) tasks), test_db)
    ∧ (∀ t, t ∈ tasks
            ↔ t ∈ todoapp_task test_db ∧ Task.user t = Some (User.pk testuser))
    ∧ tasks `sublist_of` todoapp_task test_db
    ∧ StronglySorted pk_lt tasks.
Proof.
  exact (TaskList_lists_own_tasks_in_creation_order testuser
           (HttpRequest.mk GET "/" (Some testuser) [] 200) test_db
           (reachable_wf _ test_db_reachable) eq_refl eq_refl).
Defined.

(** C10: the table admits a task without an owner (one is created by
    the model manager when no user is given, in a database the
    application can build), and whatever the request, no task on a task
    list page is ownerless: each belongs to the user of the request. *)
Theorem ownerless_task_never_listed :
  (∃ db t, reachable db ∧ t ∈ todoapp_task db ∧ Task.user t = None)
  ∧ (∀ (r : Route) (request : HttpRequest.t) (db : Database)
       (template_name : string) (object_list tasks : list Task.t) (t : Task.t),
       (handle r request db).1
       = TemplateResponse template_name (list_context object_list tasks) →
       t ∈ tasks →
       Task.user t ≠ None
       ∧ ∃ u, HttpRequest.user request = Some u
              ∧ Task.user t = Some (User.pk u)).
Proof.
  split.
  - exists test_db_ownerless,
      (Task_objects_create 103
         (mkTaskKwargs None (Some "Nobody's Task") None None None) test_db).1.
    split; [apply test_db_ownerless_reachable|].
    split; [|done]. vm_compute. do 3 right. left.
  - intros r request db template_name object_list tasks t Hresponse Ht.
    destruct (list_context_owned _ _ _ _ _ _ _ Hresponse Ht) as (u & Hu & Hown).
    split; [by rewrite Hown|eauto].
Qed.

Lemma ownerless_task_never_listed_witness :
  let t := Task.mk 1 (Some 1) (Some "Task 1") None "Incomplete" 100 "Medium" in
  Task.user t ≠ None
  ∧ ∃ u, Some testuser = Some u ∧ Task.user t = Some (User.pk u).
Proof.
  refine (proj2 ownerless_task_never_listed task
            (HttpRequest.mk GET "/" (Some testuser) [] 200) test_db_ownerless
            _ _ _ _ eq_refl _).
  vm_compute. left.
Defined.

(** C2: for every authenticated user and every key of an existing task,
    whoever owns it, the detail page shows the task, the update view
    saves a valid form over it, and the delete view removes it: the
    views look the object up by its key in the whole table and check
    nothing else. *)
Theorem by_id_views_check_existence_only
    (u : User.t) (k : N) (obj : Task.t) (db : Database) :
  get_object k db = Some obj →
  (∀ request,
     HttpRequest.user request = Some u →
     HttpRequest.method request = GET →
     handle (tasks_detail k) request db
     = (TemplateResponse "todoapp/task.html" (object_context obj obj), db))
  ∧ (∀ request form,
       HttpRequest.user request = Some u →
       HttpRequest.method request = POST →
       full_clean (HttpRequest.POST request) = inr form →
       handle (task_update k) request db
       = (HttpResponseRedirect "/", update_task (construct_instance form obj) db)
       ∧ get_object k (update_task (construct_instance form obj) db)
         = Some (construct_instance form obj))
  ∧ (∀ request,
       HttpRequest.user request = Some u →
       HttpRequest.method request = POST →
       handle (task_delete k) request db
       = (HttpResponseRedirect "/", delete_task k db)
       ∧ get_object k (delete_task k db) = None).
Proof.
  intros Hobj. pose proof (get_pk_Some _ _ _ Hobj) as [_ Hk].
  split; [|split].
  - intros request Hu Hm. unfold_views. by rewrite Hu, Hm, Hobj.
  - intros request form Hu Hm Hform. unfold_views.
    rewrite Hu, Hm, Hobj, Hform. split; [done|].
    by apply (get_object_update_task k obj).
  - intros request Hu Hm. unfold_views. rewrite Hu, Hm, Hobj, Hk.
    split; [done|]. apply get_object_delete_task.
Qed.

Lemma by_id_views_check_existence_only_witness :
  Task.user task_1 = Some (User.pk testuser)
  ∧ User.pk otheruser ≠ User.pk testuser
  ∧ handle (tasks_detail 1)
      (HttpRequest.mk GET "/task/1/" (Some otheruser) [] 200) test_db
    = (TemplateResponse "todoapp/task.html" (object_context task_1 task_1),
       test_db)
  ∧ handle (task_update 1)
      (HttpRequest.mk POST "/task-update/1/" (Some otheruser) task_data 200)
      test_db
    = (HttpResponseRedirect "/", update_task task_1_updated test_db)
  ∧ get_object 1 (update_task task_1_updated test_db) = Some task_1_updated
  ∧ handle (task_delete 1)
      (HttpRequest.mk POST "/task-delete/1/" (Some otheruser) [] 200) test_db
    = (HttpResponseRedirect "/", delete_task 1 test_db)
  ∧ get_object 1 (delete_task 1 test_db) = None.
Proof.
  split; [reflexivity|]. split; [discriminate|].
  destruct (by_id_views_check_existence_only otheruser 1 task_1 test_db eq_refl)
    as (Hdetail & Hupdate & Hdelete).
  split; [exact (Hdetail (HttpRequest.mk GET "/task/1/" (Some otheruser) [] 200)
                   eq_refl eq_refl)|].
  split; [exact (proj1 (Hupdate
                   (HttpRequest.mk POST "/task-update/1/" (Some otheruser)
                      task_data 200)
                   (mk_cleaned_data (Some "Updated Task")
                      (Some "Updated Task Description") "Completed" "High")
                   eq_refl eq_refl eq_refl))|].
  split; [exact (proj2 (Hupdate
                   (HttpRequest.mk POST "/task-update/1/" (Some otheruser)
                      task_data 200)
                   (mk_cleaned_data (Some "Updated Task")
                      (Some "Updated Task Description") "Completed" "High")
                   eq_refl eq_refl eq_refl))|].
  exact (Hdelete (HttpRequest.mk POST "/task-delete/1/" (Some otheruser) [] 200)
           eq_refl eq_refl).
Defined.

(** C3, as stated, fails: in the scenario of the test suite the second
    user, who owns none of the first user's tasks, is shown the first
    user's task 1, updates it and deletes it. *)
Lemma by_id_access_by_non_owner :
  get_object 1 test_db = Some task_1
  ∧ Task.user task_1 = Some (User.pk testuser)
  ∧ Task.user task_1 ≠ Some (User.pk otheruser)
  ∧ handle (tasks_detail 1)
      (HttpRequest.mk GET "/task/1/" (Some otheruser) [] 200) test_db
    = (TemplateResponse "todoapp/task.html" (object_context task_1 task_1),
       test_db)
  ∧ (handle (task_update 1)
       (HttpRequest.mk POST "/task-update/1/" (Some otheruser) task_data 200)
       test_db).1
    = HttpResponseRedirect "/"
  ∧ get_object 1
      (handle (task_update 1)
         (HttpRequest.mk POST "/task-update/1/" (Some otheruser) task_data 200)
         test_db).2
    = Some task_1_updated
  ∧ (handle (task_delete 1)
       (HttpRequest.mk POST "/task-delete/1/" (Some otheruser) [] 200)
       test_db).1
    = HttpResponseRedirect "/"
  ∧ get_object 1
      (handle (task_delete 1)
         (HttpRequest.mk POST "/task-delete/1/" (Some otheruser) [] 200)
         test_db).2
    = None.
Proof. vm_compute. repeat split. discriminate. Qed.

(** C3, amended: a task is listed only in its owner's session; get,
    update and delete on a task's key are served only to a requester
    with a session and only when the key exists, whoever owns the task. *)
Theorem by_id_access_requires_session_and_existence
    (r : Route) (k : N) (request : HttpRequest.t) (db : Database) :
  r ∈ [tasks_detail k; task_update k; task_delete k] →
  served (handle r request db).1 →
  is_Some (HttpRequest.user request)
  ∧ is_Some (get_object k db)
  ∧ (∀ template_name object_list tasks t,
       (handle task request db).1
       = TemplateResponse template_name (list_context object_list tasks) →
       t ∈ tasks →
       ∃ u, HttpRequest.user request = Some u
            ∧ Task.user t = Some (User.pk u)).
Proof.
  intros Hr Hserved.
  destruct (by_id_served r k request db Hr Hserved) as [Hu Hobj].
  split; [done|]. split; [done|].
  intros template_name object_list tasks t. apply list_context_owned.
Qed.

Lemma by_id_access_requires_session_and_existence_witness :
  let request :=
    HttpRequest.mk POST "/task-delete/1/" (Some otheruser) [] 200 in
  is_Some (HttpRequest.user request)
  ∧ is_Some (get_object 1 test_db)
  ∧ (∀ template_name object_list tasks t,
       (handle task request test_db).1
       = TemplateResponse template_name (list_context object_list tasks) →
       t ∈ tasks →
       ∃ u, HttpRequest.user request = Some u
            ∧ Task.user t = Some (User.pk u)).
Proof.
  refine (by_id_access_requires_session_and_existence (task_delete 1) 1
            (HttpRequest.mk POST "/task-delete/1/" (Some otheruser) [] 200)
            test_db _ _).
  - do 2 right. left.
  - reflexivity.
Defined.

(** C4: whatever an authenticated user posts to the create view, the
    tasks it adds to the table (one for a valid form, none otherwise)
    have that user as their owner; a valid form adds the row with the
    next key, the cleaned values of the four fields and the time of the
    request; and a pair of the posted data under a key that names no
    field of the form, such as [user], changes nothing in the outcome. *)
Theorem TaskCreate_owner_is_requester
    (u : User.t) (request : HttpRequest.t) (db : Database) :
  HttpRequest.user request = Some u →
  ∃ created,
    todoapp_task (handle task_create request db).2 = todoapp_task db ++ created
    ∧ Forall (λ t, Task.user t = Some (User.pk u)) created
    ∧ (∀ form,
         HttpRequest.method request = POST →
         full_clean (HttpRequest.POST request) = inr form →
         (handle task_create request db).1 = HttpResponseRedirect "/"
         ∧ created
           = [Task.mk (todoapp_task_seq db) (Some (User.pk u))
                (cleaned_title form) (cleaned_description form)
                (cleaned_status form) (HttpRequest.now request)
                (cleaned_priority form)])
    ∧ (∀ key v,
         key ∉ fields →
         handle task_create
           (HttpRequest.set_POST ((key, v) :: HttpRequest.POST request) request)
           db
         = handle task_create request db).
Proof.
  intros Hu.
  assert (∀ key v, key ∉ fields →
            handle task_create
              (HttpRequest.set_POST ((key, v) :: HttpRequest.POST request)
                 request) db
            = handle task_create request db) as Hother.
  { intros key v Hkey. unfold_views. simpl.
    by rewrite full_clean_cons_other. }
  revert Hother. unfold_views. rewrite Hu. intros Hother.
  destruct (HttpRequest.method request).
  - exists []. rewrite app_nil_r. repeat split; [constructor|done..].
  - destruct (full_clean (HttpRequest.POST request)) as [errors|form'].
    + exists []. rewrite app_nil_r. repeat split; [constructor|done..].
    + eexists. split; [reflexivity|].
      split; [by repeat constructor|]. split; [|done].
      by intros form _ [= <-].
Qed.

Lemma TaskCreate_owner_is_requester_witness :
  let request :=
    HttpRequest.mk POST "/task-create/" (Some testuser) task_data 200 in
  ∃ created,
    todoapp_task (handle task_create request test_db).2
    = todoapp_task test_db ++ created
    ∧ Forall (λ t, Task.user t = Some (User.pk testuser)) created
    ∧ (∀ form,
         HttpRequest.method request = POST →
         full_clean (HttpRequest.POST request) = inr form →
         (handle task_create request test_db).1 = HttpResponseRedirect "/"
         ∧ created
           = [Task.mk (todoapp_task_seq test_db) (Some (User.pk testuser))
                (cleaned_title form) (cleaned_description form)
                (cleaned_status form) (HttpRequest.now request)
                (cleaned_priority form)])
    ∧ (∀ key v,
         key ∉ fields →
         handle task_create
           (HttpRequest.set_POST ((key, v) :: HttpRequest.POST request) request)
           test_db
         = handle task_create request test_db).
Proof.
  exact (TaskCreate_owner_is_requester testuser
           (HttpRequest.mk POST "/task-create/" (Some testuser) task_data 200)
           test_db eq_refl).
Defined.

(** C7: whatever is sent to the update view of an existing task, the
    task is afterwards found under the same key, with the same owner and
    the same creation time; a valid form posted by an authenticated user
    sets the four editable fields to its cleaned values; every other
    task, the keys of the table and the users are left as they were. *)
Theorem TaskUpdate_keeps_key_owner_created
    (k : N) (obj : Task.t) (request : HttpRequest.t) (db : Database) :
  get_object k db = Some obj →
  ∃ obj',
    get_object k (handle (task_update k) request db).2 = Some obj'
    ∧ Task.pk obj' = Task.pk obj
    ∧ Task.user obj' = Task.user obj
    ∧ Task.created obj' = Task.created obj
    ∧ (∀ u form,
         HttpRequest.user request = Some u →
         HttpRequest.method request = POST →
         full_clean (HttpRequest.POST request) = inr form →
         Task.title obj' = cleaned_title form
         ∧ Task.description obj' = cleaned_description form
         ∧ Task.status obj' = cleaned_status form
         ∧ Task.priority obj' = cleaned_priority form)
    ∧ (∀ j, j ≠ k →
         get_object j (handle (task_update k) request db).2 = get_object j db)
    ∧ Task.pk <$> todoapp_task (handle (task_update k) request db).2
      = Task.pk <$> todoapp_task db
    ∧ auth_user (handle (task_update k) request db).2 = auth_user db.
Proof.
  intros Hobj. pose proof (get_pk_Some _ _ _ Hobj) as [_ Hk].
  unfold_views.
  destruct (HttpRequest.user request) as [u|];
    [destruct (HttpRequest.method request)|]; rewrite ?Hobj;
    [| destruct (full_clean (HttpRequest.POST request)) as [errors|form] |].
  3: { exists (construct_instance form obj). simpl. split.
       { by apply (get_object_update_task k obj). }
       split; [done|]. split; [done|]. split; [done|]. split.
       { by intros u' form' _ _ [= <-]. }
       split; [|split; [apply fmap_pk_fmap; intros; by case_decide|done]].
       intros j Hj. apply get_object_update_task_ne. simpl. congruence. }
  all: exists obj; simpl; rewrite Hobj; repeat split; try done.
Qed.

Lemma TaskUpdate_keeps_key_owner_created_witness :
  let request :=
    HttpRequest.mk POST "/task-update/1/" (Some otheruser) task_data 200 in
  ∃ obj',
    get_object 1 (handle (task_update 1) request test_db).2 = Some obj'
    ∧ Task.pk obj' = Task.pk task_1
    ∧ Task.user obj' = Task.user task_1
    ∧ Task.created obj' = Task.created task_1
    ∧ (∀ u form,
         HttpRequest.user request = Some u →
         HttpRequest.method request = POST →
         full_clean (HttpRequest.POST request) = inr form →
         Task.title obj' = cleaned_title form
         ∧ Task.description obj' = cleaned_description form
         ∧ Task.status obj' = cleaned_status form
         ∧ Task.priority obj' = cleaned_priority form)
    ∧ (∀ j, j ≠ 1 →
         get_object j (handle (task_update 1) request test_db).2
         = get_object j test_db)
    ∧ Task.pk <$> todoapp_task (handle (task_update 1) request test_db).2
      = Task.pk <$> todoapp_task test_db
    ∧ auth_user (handle (task_update 1) request test_db).2
      = auth_user test_db.
Proof.
  exact (TaskUpdate_keeps_key_owner_created 1 task_1
           (HttpRequest.mk POST "/task-update/1/" (Some otheruser) task_data 200)
           test_db eq_refl).
Defined.

(** C9: after any request, every row of the table of tasks either was
    in the table before the request, unchanged, or has a status among
    ['Pending'], ['Completed'] and a priority among ['High'],
    ['Medium'], ['Low']: the create and update views store only values
    of the declared choices, so they never store ['Incomplete']. *)
Theorem handlers_store_declared_choices
    (r : Route) (request : HttpRequest.t) (db : Database) (t : Task.t) :
  t ∈ todoapp_task (handle r request db).2 →
  t ∈ todoapp_task db
  ∨ (declared_choices t ∧ Task.status t ≠ "Incomplete").
Proof.
  assert (∀ x, declared_choices x → Task.status x ≠ "Incomplete") as Hne.
  { intros x [Hs _] Heq. rewrite Heq in Hs.
    repeat (apply elem_of_cons in Hs as [Hs|Hs]; [discriminate Hs|]).
    by apply elem_of_nil in Hs. }
  assert (∀ form obj, full_clean (HttpRequest.POST request) = inr form →
            declared_choices (construct_instance form obj)) as Hform.
  { intros form obj Hvalid. by apply full_clean_inr in Hvalid. }
  destruct (handle_cases r request db)
    as [-> | [(u & form & _ & _ & _ & Hvalid & ->)
           | [(k & obj & form & _ & _ & _ & _ & Hvalid & ->)
             | (k & obj & _ & _ & _ & _ & ->)]]]; [by left|..]; simpl.
  - intros [Ht| ->%list_elem_of_singleton]%elem_of_app; [by left|].
    right. split; [|apply Hne]; by apply (Hform form Task.new).
  - intros (x & -> & Hx)%list_elem_of_fmap.
    case_decide; [|by left]. right. split; [|apply Hne]; by apply Hform.
  - intros [_ Ht]%list_elem_of_filter. by left.
Qed.

Lemma handlers_store_declared_choices_witness :
  let t := Task.mk 4 (Some 1) (Some "Updated Task")
             (Some "Updated Task Description") "Completed" 200 "High" in
  t ∈ todoapp_task test_db
  ∨ (declared_choices t ∧ Task.status t ≠ "Incomplete").
Proof.
  refine (handlers_store_declared_choices task_create
            (HttpRequest.mk POST "/task-create/" (Some testuser) task_data 200)
            test_db _ _).
  vm_compute. do 3 right. left.
Defined.

(** * Further properties of the views *)

(** ** Lookups after an insert, an update and a delete *)

Section lookups.
Implicit Types (db : Database) (obj : Task.t) (k j : N).

Lemma filter_Forall_id {A} (P : A → Prop) `{!∀ x, Decision (P x)} (l : list A) :
  Forall P l → filter P l = l.
Proof.
  induction 1 as [|x l Hx _ IH]; [done|].
  by rewrite filter_cons_True, IH.
Qed.

Lemma filter_Forall_not {A} (P : A → Prop) `{!∀ x, Decision (P x)} (l : list A) :
  Forall (λ x, ¬ P x) l → filter P l = [].
Proof.
  induction 1 as [|x l Hx _ IH]; [done|].
  by rewrite filter_cons_False.
Qed.

Lemma update_task_idempotent obj db :
  update_task obj (update_task obj db) = update_task obj db.
Proof.
  unfold update_task. simpl. f_equal.
  rewrite <- list_fmap_compose. apply list_fmap_ext. intros i r _. simpl.
  destruct (decide (Task.pk r = Task.pk obj)) as [Hr|Hr].
  - by rewrite decide_True.
  - by rewrite decide_False.
Qed.

(** A key other than the next of the sequence is looked up after an
    insert as before. *)
Lemma get_object_insert_task_ne now obj k db :
  k ≠ todoapp_task_seq db →
  get_object k (insert_task now obj db).2 = get_object k db.
Proof.
  intros Hk. unfold get_object, objects_all, get_pk, filter_pk. simpl.
  rewrite filter_app, filter_cons_False, filter_nil, app_nil_r; [done|].
  simpl. congruence.
Qed.

(** In a table that satisfies the invariant the next key of the
    sequence is free, and after an insert it finds the new row. *)
Lemma get_object_seq_None db : wf db → get_object (todoapp_task_seq db) db = None.
Proof.
  intros [_ Hb]. apply get_pk_None. intros t Ht.
  rewrite Forall_forall in Hb. specialize (Hb t Ht). simpl in Hb. lia.
Qed.

Lemma get_object_insert_task now obj db :
  wf db →
  get_object (todoapp_task_seq db) (insert_task now obj db).2
  = Some (insert_task now obj db).1.
Proof.
  intros Hwf. pose proof (get_object_seq_None db Hwf) as Hnone.
  unfold get_object, objects_all, get_pk, filter_pk in *. simpl.
  apply head_None in Hnone.
  by rewrite filter_app, Hnone, filter_cons_True.
Qed.

(** The row a key finds is the only row with that key. *)
Lemma wf_key_unique db k obj t :
  wf db → get_object k db = Some obj → t ∈ todoapp_task db → Task.pk t = k →
  t = obj.
Proof.
  intros [Hs _] Hobj Ht Hk.
  pose proof (get_pk_sorted _ _ Hs Ht) as Hfound. rewrite Hk in Hfound.
  unfold get_object, objects_all in Hobj. congruence.
Qed.
End lookups.

(** ** Requests that change nothing, and requests for a missing task *)





(** X3: once an authenticated user has posted to the delete view of an
    existing task, the requester is sent to the task list, and every
    later request of an authenticated user for that key, to the detail,
    the update or the delete view, is answered [Http404]: deleting twice
    fails the second time. *)
Theorem deleted_task_is_not_found
    (u u' : User.t) (k : N) (obj : Task.t) (request request' : HttpRequest.t)
    (db : Database) :
  HttpRequest.user request = Some u →
  HttpRequest.method request = POST →
  get_object k db = Some obj →
  HttpRequest.user request' = Some u' →
  let db' := (handle (task_delete k) request db).2 in
  (handle (task_delete k) request db).1 = HttpResponseRedirect "/"
  ∧ handle (task_delete k) request' db' = (Http404, db')
  ∧ handle (task_update k) request' db' = (Http404, db')
  ∧ (HttpRequest.method request' = GET →
     handle (tasks_detail k) request' db' = (Http404, db')).
Proof.
  intros Hu Hm Hobj Hu'. pose proof (get_pk_Some _ _ _ Hobj) as [_ Hk].
  unfold_views. rewrite Hu, Hm, Hobj, Hu', Hk. simpl.
  rewrite get_object_delete_task. repeat split; try done.
  - by destruct (HttpRequest.method request').
  - by destruct (HttpRequest.method request').
  - by intros ->.
Qed.

Lemma deleted_task_is_not_found_witness :
  let request := HttpRequest.mk POST "/task-delete/1/" (Some otheruser) [] 200 in
  let request' := HttpRequest.mk GET "/task/1/" (Some testuser) [] 201 in
  let db' := (handle (task_delete 1) request test_db).2 in
  (handle (task_delete 1) request test_db).1 = HttpResponseRedirect "/"
  ∧ handle (task_delete 1) request' db' = (Http404, db')
  ∧ handle (task_update 1) request' db' = (Http404, db')
  ∧ (HttpRequest.method request' = GET →
     handle (tasks_detail 1) request' db' = (Http404, db')).
Proof.
  exact (deleted_task_is_not_found otheruser testuser 1 task_1
           (HttpRequest.mk POST "/task-delete/1/" (Some otheruser) [] 200)
           (HttpRequest.mk GET "/task/1/" (Some testuser) [] 201)
           test_db eq_refl eq_refl eq_refl eq_refl).
Defined.

(** X8: the update view is idempotent: serving the same request a
    second time gives the same response and the same database as
    serving it once. *)
Theorem TaskUpdate_idempotent
    (k : N) (request : HttpRequest.t) (db : Database) :
  handle (task_update k) request (handle (task_update k) request db).2
  = handle (task_update k) request db.
Proof.
  unfold_views.
  destruct (HttpRequest.user request) as [u|]; [|done].
  destruct (HttpRequest.method request).
  - by destruct (get_object k db) as [obj|] eqn:Hobj; simpl; rewrite Hobj.
  - destruct (get_object k db) as [obj|] eqn:Hobj; simpl; [|by rewrite Hobj].
    destruct (full_clean (HttpRequest.POST request)) as [errors|form] eqn:Hform;
      simpl; [by rewrite Hobj|].
    pose proof (get_pk_Some _ _ _ Hobj) as [_ Hk].
    rewrite (get_object_update_task k obj (construct_instance form obj) db)
      by done.
    change (construct_instance form (construct_instance form obj))
      with (construct_instance form obj).
    by rewrite update_task_idempotent.
Qed.

(** ** Keys are not handed out twice *)

Section evolution.
Implicit Types (db : Database) (k : N).

Lemma absent_key_handle r request k db :
  k < todoapp_task_seq db → get_object k db = None →
  k < todoapp_task_seq (handle r request db).2
  ∧ get_object k (handle r request db).2 = None.
Proof.
  intros Hk Hnone.
  destruct (handle_cases r request db)
    as [-> | [(u & form & _ & _ & _ & _ & ->)
           | [(k' & obj & form & _ & _ & _ & Hobj & _ & ->)
             | (k' & obj & _ & _ & _ & Hobj & ->)]]]; [done|..].
  - split; [simpl; lia|]. cbn [snd].
    rewrite get_object_insert_task_ne; [done|lia].
  - split; [done|]. cbn [snd].
    rewrite get_object_update_task_ne; [done|].
    simpl. pose proof (get_pk_Some _ _ _ Hobj) as [_ Hk'].
    intros Heq. rewrite Heq, Hk' in Hnone. congruence.
  - split; [done|]. cbn [snd]. destruct (decide (k = k')) as [->|Hne].
    + apply get_object_delete_task.
    + by rewrite get_object_delete_task_ne.
Qed.

(** A key below the sequence that no row has is never found again. *)
Lemma absent_key_stays_absent k db db' :
  k < todoapp_task_seq db → get_object k db = None → evolves db db' →
  k < todoapp_task_seq db' ∧ get_object k db' = None.
Proof.
  intros Hk Hnone.
  induction 1 as [|username password db' _ IH|now kw db' _ IH
                 |r request db' _ IH|username password request db' _ IH].
  - done.
  - exact IH.
  - destruct IH as [Hk' Hnone']. split; [simpl; lia|].
    unfold Task_objects_create.
    rewrite get_object_insert_task_ne; [done|lia].
  - destruct IH as [Hk' Hnone']. by apply absent_key_handle.
  - exact IH.
Qed.
End evolution.

(** X4: the key of a task an authenticated user has deleted is never
    found again, whatever the application does afterwards (model
    managers, requests to the task views, registrations): the sequence
    does not hand a key out twice. *)
Theorem deleted_key_never_comes_back
    (u : User.t) (k : N) (obj : Task.t) (request : HttpRequest.t)
    (db db' : Database) :
  wf db →
  HttpRequest.user request = Some u →
  HttpRequest.method request = POST →
  get_object k db = Some obj →
  evolves (handle (task_delete k) request db).2 db' →
  get_object k db' = None.
Proof.
  intros [_ Hb] Hu Hm Hobj Hev.
  pose proof (get_pk_Some _ _ _ Hobj) as [Hin Hk].
  rewrite Forall_forall in Hb. specialize (Hb obj Hin). simpl in Hb.
  eapply absent_key_stays_absent; [| |exact Hev].
  - revert Hev. unfold_views. rewrite Hu, Hm, Hobj. simpl. intros _. lia.
  - revert Hev. unfold_views. rewrite Hu, Hm, Hobj, Hk. simpl. intros _.
    apply get_object_delete_task.
Qed.

Lemma deleted_key_never_comes_back_witness :
  let request := HttpRequest.mk POST "/task-delete/3/" (Some testuser) [] 200 in
  let request' :=
    HttpRequest.mk POST "/task-create/" (Some otheruser) task_data 201 in
  get_object 3
    (handle task_create request'
       (handle (task_delete 3) request test_db).2).2
  = None.
Proof.
  refine (deleted_key_never_comes_back testuser 3
            (Task.mk 3 (Some 2) (Some "Other User Task") None "Incomplete" 102
               "Medium")
            (HttpRequest.mk POST "/task-delete/3/" (Some testuser) [] 200)
            test_db _ (reachable_wf _ test_db_reachable)
            eq_refl eq_refl eq_refl _).
  apply evolves_handle, evolves_refl.
Defined.

(** ** What create, update and delete do to the table and to the lists *)

Section lists.
Implicit Types (db : Database) (obj : Task.t) (v : User.t).

Lemma listed_eq v db : listed v db = filter_user v (todoapp_task db).
Proof. done. Qed.

Lemma filter_fmap_stable {A} (P : A → Prop) `{!∀ x, Decision (P x)}
    (f : A → A) (l : list A) :
  Forall (λ x, P (f x) ↔ P x) l → filter P (f <$> l) = f <$> filter P l.
Proof.
  induction 1 as [|x l Hx _ IH]; [done|].
  rewrite fmap_cons, !filter_cons.
  destruct (decide (P x)) as [Hp|Hp].
  - rewrite decide_True by by apply Hx. by rewrite fmap_cons, IH.
  - rewrite decide_False; [done|]. by rewrite Hx.
Qed.

(** A row of a table with growing keys splits the table into the rows
    with smaller keys and the rows with larger keys. *)
Lemma sorted_split (l : list Task.t) obj :
  StronglySorted pk_lt l → obj ∈ l →
  ∃ before after,
    l = before ++ obj :: after
    ∧ Forall (λ t, Task.pk t < Task.pk obj) before
    ∧ Forall (λ t, Task.pk obj < Task.pk t) after.
Proof.
  intros Hs (before & after & ->)%list_elem_of_split.
  exists before, after. split; [done|].
  apply StronglySorted_app in Hs as (Hlt & _ & Hs).
  apply StronglySorted_cons in Hs as [Hafter _]. split; [|done].
  apply Forall_forall. intros t Ht. apply (Hlt t obj Ht). left.
Qed.
End lists.

(** X5: the delete view removes exactly the one row of the task and
    keeps the order of the rest; the task is in no list afterwards, and
    the list of every user who does not own it is unchanged. *)
Theorem TaskDelete_removes_one_row
    (u : User.t) (k : N) (obj : Task.t) (request : HttpRequest.t)
    (db : Database) :
  wf db →
  HttpRequest.user request = Some u →
  HttpRequest.method request = POST →
  get_object k db = Some obj →
  ∃ before after,
    todoapp_task db = before ++ obj :: after
    ∧ todoapp_task (handle (task_delete k) request db).2 = before ++ after
    ∧ (obj ∉ before ++ after)
    ∧ (∀ v, obj ∉ listed v (handle (task_delete k) request db).2)
    ∧ (∀ v, Task.user obj ≠ Some (User.pk v) →
            listed v (handle (task_delete k) request db).2 = listed v db).
Proof.
  intros [Hs _] Hu Hm Hobj.
  pose proof (get_pk_Some _ _ _ Hobj) as [Hin Hk].
  destruct (sorted_split _ _ Hs Hin) as (before & after & Hsplit & Hb & Ha).
  exists before, after. split; [done|].
  assert (todoapp_task (handle (task_delete k) request db).2 = before ++ after)
    as Htable.
  { unfold_views. rewrite Hu, Hm, Hobj. simpl. rewrite Hsplit.
    rewrite filter_app, filter_cons_False by (intros H; by apply H).
    rewrite !filter_Forall_id; [done|..].
    - eapply Forall_impl; [exact Ha|]. simpl. intros; lia.
    - eapply Forall_impl; [exact Hb|]. simpl. intros; lia. }
  assert (obj ∉ before ++ after) as Hgone.
  { rewrite Forall_forall in Hb, Ha.
    intros [H|H]%elem_of_app; [specialize (Hb _ H)|specialize (Ha _ H)]; lia. }
  split; [done|]. split; [done|]. split.
  - intros v. rewrite listed_eq, Htable.
    by intros [_ H]%list_elem_of_filter.
  - intros v Hv. rewrite !listed_eq, Htable, Hsplit. unfold filter_user.
    by rewrite !filter_app, filter_cons_False.
Qed.

Lemma TaskDelete_removes_one_row_witness :
  let request := HttpRequest.mk POST "/task-delete/1/" (Some otheruser) [] 200 in
  ∃ before after,
    todoapp_task test_db = before ++ task_1 :: after
    ∧ todoapp_task (handle (task_delete 1) request test_db).2 = before ++ after
    ∧ (task_1 ∉ before ++ after)
    ∧ (∀ v, task_1 ∉ listed v (handle (task_delete 1) request test_db).2)
    ∧ (∀ v, Task.user task_1 ≠ Some (User.pk v) →
            listed v (handle (task_delete 1) request test_db).2
            = listed v test_db).
Proof.
  exact (TaskDelete_removes_one_row otheruser 1 task_1
           (HttpRequest.mk POST "/task-delete/1/" (Some otheruser) [] 200)
           test_db (reachable_wf _ test_db_reachable)
           eq_refl eq_refl eq_refl).
Defined.

(** X6: a valid form posted to the create view by an authenticated user
    is stored under the next key of the sequence, which was free; the
    new task is found under that key, every other key finds what it
    found before, the task is appended to the list of its creator, and
    the list of every other user is unchanged. *)
Theorem TaskCreate_then_lookup
    (u : User.t) (form : cleaned_data) (request : HttpRequest.t)
    (db : Database) :
  wf db →
  HttpRequest.user request = Some u →
  HttpRequest.method request = POST →
  full_clean (HttpRequest.POST request) = inr form →
  let db' := (handle task_create request db).2 in
  let obj :=
    Task.mk (todoapp_task_seq db) (Some (User.pk u))
      (cleaned_title form) (cleaned_description form) (cleaned_status form)
      (HttpRequest.now request) (cleaned_priority form) in
  get_object (todoapp_task_seq db) db = None
  ∧ get_object (todoapp_task_seq db) db' = Some obj
  ∧ (∀ j, j ≠ todoapp_task_seq db → get_object j db' = get_object j db)
  ∧ listed u db' = listed u db ++ [obj]
  ∧ (∀ v, User.pk v ≠ User.pk u → listed v db' = listed v db)
  ∧ todoapp_task_seq db' = N.succ (todoapp_task_seq db).
Proof.
  intros Hwf Hu Hm Hform.
  set (instance := Task.set_user (Some (User.pk u))
                     (construct_instance form Task.new)).
  assert ((handle task_create request db).2
          = (insert_task (HttpRequest.now request) instance db).2) as ->.
  { unfold_views. by rewrite Hu, Hm, Hform. }
  cbv zeta. split; [by apply get_object_seq_None|].
  split; [by rewrite get_object_insert_task|].
  split; [intros j Hj; by apply get_object_insert_task_ne|].
  rewrite !listed_eq. unfold filter_user. simpl.
  split; [|split; [|done]].
  - by rewrite filter_app, filter_cons_True.
  - intros v Hv. rewrite !listed_eq. unfold filter_user. simpl.
    rewrite filter_app, filter_cons_False, filter_nil, app_nil_r; [done|].
    simpl. congruence.
Qed.

Lemma TaskCreate_then_lookup_witness :
  let request :=
    HttpRequest.mk POST "/task-create/" (Some testuser) task_data 200 in
  let db' := (handle task_create request test_db).2 in
  let obj :=
    Task.mk 4 (Some 1) (Some "Updated Task") (Some "Updated Task Description")
      "Completed" 200 "High" in
  get_object 4 test_db = None
  ∧ get_object 4 db' = Some obj
  ∧ (∀ j, j ≠ 4 → get_object j db' = get_object j test_db)
  ∧ listed testuser db' = listed testuser test_db ++ [obj]
  ∧ (∀ v, User.pk v ≠ User.pk testuser → listed v db' = listed v test_db)
  ∧ todoapp_task_seq db' = 5.
Proof.
  exact (TaskCreate_then_lookup testuser
           (mk_cleaned_data (Some "Updated Task")
              (Some "Updated Task Description") "Completed" "High")
           (HttpRequest.mk POST "/task-create/" (Some testuser) task_data 200)
           test_db (reachable_wf _ test_db_reachable)
           eq_refl eq_refl eq_refl).
Defined.

(** X7: whatever is sent to the update view, every user's task list
    holds the same keys in the same order afterwards: an update moves no
    task from one list to another and reorders none. *)
Theorem TaskUpdate_keeps_every_list
    (k : N) (request : HttpRequest.t) (db : Database) (v : User.t) :
  wf db →
  Task.pk <$> listed v (handle (task_update k) request db).2
  = Task.pk <$> listed v db.
Proof.
  intros Hwf.
  destruct (handle_cases (task_update k) request db)
    as [-> | [(u & form & [=] & _)
           | [(k' & obj & form & [= <-] & _ & _ & Hobj & _ & ->)
             | (k' & obj & [=] & _)]]]; [done|].
  rewrite !listed_eq. unfold filter_user. simpl.
  rewrite filter_fmap_stable; [by apply fmap_pk_fmap; intros; case_decide|].
  apply Forall_forall. intros t Ht. case_decide as Hk; [|done].
  pose proof (get_pk_Some _ _ _ Hobj) as [_ Hk'].
  by rewrite (wf_key_unique db k obj t Hwf Hobj Ht) by congruence.
Qed.

Lemma TaskUpdate_keeps_every_list_witness :
  let request :=
    HttpRequest.mk POST "/task-update/1/" (Some otheruser) task_data 200 in
  Task.pk <$> listed testuser (handle (task_update 1) request test_db).2
  = Task.pk <$> listed testuser test_db.
Proof.
  exact (TaskUpdate_keeps_every_list 1
           (HttpRequest.mk POST "/task-update/1/" (Some otheruser) task_data 200)
           test_db testuser (reachable_wf _ test_db_reachable)).
Defined.

(** ** What the model form accepts and what it reports *)

Section validation.
Implicit Types (data : QueryDict) (form : cleaned_data).




Lemma ChoiceField_clean_None choices :
  ChoiceField_clean choices None = inl [required].
Proof. done. Qed.


End validation.





(** X11: the create view does not fall back on the defaults of the
    model: a form posted without [status], or without [priority], is
    rejected with the error [required] on that field, and no task is
    created. *)
Theorem TaskCreate_requires_status_and_priority
    (u : User.t) (name : string) (request : HttpRequest.t) (db : Database) :
  HttpRequest.user request = Some u →
  HttpRequest.method request = POST →
  name ∈ ["status"; "priority"] →
  QueryDict_get name (HttpRequest.POST request) = None →
  ∃ errors,
    handle task_create request db
    = (TemplateResponse "todoapp/task_form.html" (form_context None errors), db)
    ∧ (name, [required]) ∈ errors.
Proof.
  intros Hu Hm Hname Hnone. unfold_views. rewrite Hu, Hm. unfold full_clean.
  assert (name = "status" ∨ name = "priority") as [-> | ->].
  { rewrite !elem_of_cons in Hname. destruct Hname as [|[|Hname]]; auto.
    by apply elem_of_nil in Hname. }
  all: rewrite Hnone, ChoiceField_clean_None.
  all: destruct (CharField_clean true _ _ _), (CharField_clean false _ _ _);
    try destruct (ChoiceField_clean _ _).
  all: eexists; (split; [reflexivity|]); simpl.
  all: rewrite ?elem_of_cons; auto 10.
Qed.

Lemma TaskCreate_requires_status_and_priority_witness :
  let request :=
    HttpRequest.mk POST "/task-create/" (Some testuser)
      [("title", "Default Task"); ("description", "Default Description")] 200 in
  ∃ errors,
    handle task_create request test_db
    = (TemplateResponse "todoapp/task_form.html" (form_context None errors),
       test_db)
    ∧ ("status", [required]) ∈ errors.
Proof.
  refine (TaskCreate_requires_status_and_priority testuser "status"
            (HttpRequest.mk POST "/task-create/" (Some testuser)
               [("title", "Default Task");
                ("description", "Default Description")] 200)
            test_db eq_refl eq_refl _ eq_refl).
  left.
Defined.

(** ** Registration and login *)

Section accounts.
Implicit Types (db : Database) (request : HttpRequest.t).

Lemma reverse_task_only (r : Route) : reverse r = reverse task → r = task.
Proof.
  destruct r as [|k| |k|k]; [done|..]; unfold reverse;
    rewrite ?string_app_cons; discriminate.
Qed.

(** Requests of users the sequence knows keep the owners known. *)
Lemma owners_known_handle r request db :
  owners_known db → session_known request db →
  owners_known (handle r request db).2.
Proof.
  unfold owners_known, session_known. intros Hknown Hsession.
  destruct (handle_cases r request db)
    as [-> | [(u & form & _ & Hu & _ & _ & ->)
           | [(k & obj & form & _ & _ & _ & Hobj & _ & ->)
             | (k & obj & _ & _ & _ & _ & ->)]]]; [done|..]; simpl.
  - apply Forall_app. split; [done|]. repeat constructor. simpl.
    intros k [= <-]. by apply Hsession.
  - apply Forall_fmap, Forall_forall. intros t Ht. simpl.
    rewrite Forall_forall in Hknown. case_decide; [|by apply Hknown].
    apply get_pk_Some in Hobj as [Hin _]. by apply (Hknown obj).
  - by apply Forall_filter_weaken.
Qed.

Lemma owners_known_create_user username password db :
  owners_known db →
  owners_known (User_objects_create_user username password db).2.
Proof.
  unfold owners_known. simpl. intros Hknown.
  eapply Forall_impl; [exact Hknown|]. simpl. intros t Ht k Hk.
  specialize (Ht k Hk). lia.
Qed.
End accounts.

(** X12: a valid registration creates exactly one user, with the next
    key of the sequence, binds the session to that user, leaves the
    tasks alone and redirects to the registration page, where the
    follow-up GET of the session just made is sent on to the task list. *)
Theorem registration_logs_in_and_leads_to_task_list
    (username password : string) (request request' : HttpRequest.t)
    (db : Database) :
  let new := User.mk (auth_user_seq db) username password in
  let db' := (UserRegister_form_valid username password request db).1.2 in
  UserRegister_form_valid username password request db
  = (HttpResponseRedirect "/register/", db', Some new)
  ∧ auth_user db' = auth_user db ++ [new]
  ∧ todoapp_task db' = todoapp_task db
  ∧ (HttpRequest.user request' = Some new →
     UserRegister_get request' db' = (HttpResponseRedirect "/", db', Some new)).
Proof.
  cbv zeta. repeat split; try done.
  intros Hsession. unfold UserRegister_get, HttpRequest.is_authenticated.
  rewrite Hsession. by rewrite bool_decide_eq_true_2.
Qed.

(** X13: when every owner recorded in the table of tasks is a user the
    sequence has handed out, the user a registration creates starts with
    an empty task list (the whole table is still under [object_list]),
    and the owners stay known. *)
Theorem registered_user_starts_with_empty_list
    (username password : string) (request request' : HttpRequest.t)
    (db : Database) (u : User.t) :
  owners_known db →
  (UserRegister_form_valid username password request db).2 = Some u →
  HttpRequest.user request' = Some u →
  HttpRequest.method request' = GET →
  let db' := (UserRegister_form_valid username password request db).1.2 in
  handle task request' db'
  = (TemplateResponse "todoapp/task_list.html"
       (list_context (todoapp_task db) []), db')
  ∧ owners_known db'.
Proof.
  intros Hknown [= <-] Hu Hm. cbv zeta. split.
  - unfold_views. rewrite Hu, Hm. unfold TaskList_get_context_data.
    do 3 f_equal. unfold filter_user, objects_all. simpl.
    apply filter_Forall_not. eapply Forall_impl; [exact Hknown|].
    simpl. intros t Ht Hown. specialize (Ht _ Hown). lia.
  - by apply owners_known_create_user.
Qed.

Lemma registered_user_starts_with_empty_list_witness :
  let request := HttpRequest.mk POST "/register/" None [] 200 in
  let new := User.mk 3 "newuser" "newpassword" in
  let db' := (UserRegister_form_valid "newuser" "newpassword" request test_db).1.2 in
  handle task (HttpRequest.mk GET "/" (Some new) [] 201) db'
  = (TemplateResponse "todoapp/task_list.html"
       (list_context (todoapp_task test_db) []), db')
  ∧ owners_known db'.
Proof.
  refine (registered_user_starts_with_empty_list "newuser" "newpassword"
            (HttpRequest.mk POST "/register/" None [] 200)
            (HttpRequest.mk GET "/" (Some (User.mk 3 "newuser" "newpassword"))
               [] 201)
            test_db (User.mk 3 "newuser" "newpassword") _ eq_refl eq_refl eq_refl).
  unfold owners_known. vm_compute todoapp_task.
  repeat constructor; intros k [= <-]; reflexivity.
Defined.

(** X14: the login gate sends an anonymous request for a protected
    route to the login page with the requested path as [next], but a
    login never returns there: whatever [next] is sent with the login,
    the redirect after it is the task list, which is the requested page
    only if the request was for the task list. *)
Theorem login_lands_on_task_list
    (r : Route) (u : User.t) (request request' : HttpRequest.t)
    (db : Database) :
  resolves request r →
  HttpRequest.user request = None →
  (handle r request db).1
  = HttpResponseRedirect ("/login/?next=" +:+ reverse r)
  ∧ UserLogin_form_valid u request' db = (HttpResponseRedirect "/", db, Some u)
  ∧ (reverse r = "/" ↔ r = task).
Proof.
  intros Hpath Hanon. split; [|split; [done|]].
  - unfold resolves in Hpath.
    destruct r; unfold_views; rewrite Hanon;
      unfold redirect_to_login_url, HttpRequest.get_full_path;
      by rewrite Hpath, quote_reverse.
  - split; [apply reverse_task_only|by intros ->].
Qed.

Lemma login_lands_on_task_list_witness :
  let request := HttpRequest.mk GET "/task/1/" None [] 200 in
  let request' :=
    HttpRequest.mk POST "/login/" None
      [("username", "testuser"); ("password", "testpassword");
       ("next", "/task/1/")] 201 in
  (handle (tasks_detail 1) request test_db).1
  = HttpResponseRedirect ("/login/?next=" +:+ reverse (tasks_detail 1))
  ∧ UserLogin_form_valid testuser request' test_db
    = (HttpResponseRedirect "/", test_db, Some testuser)
  ∧ (reverse (tasks_detail 1) = "/" ↔ tasks_detail 1 = task).
Proof.
  exact (login_lands_on_task_list (tasks_detail 1) testuser
           (HttpRequest.mk GET "/task/1/" None [] 200)
           (HttpRequest.mk POST "/login/" None
              [("username", "testuser"); ("password", "testpassword");
               ("next", "/task/1/")] 201)
           test_db eq_refl eq_refl).
Defined.

(** ** Every stored task is found by its key *)

(** X15: in every database the application can build, no two tasks
    share a key, and the detail page of a stored task's key shows
    exactly that task to any authenticated user. *)
Theorem stored_task_is_found_by_its_key
    (u : User.t) (t : Task.t) (request : HttpRequest.t) (db : Database) :
  reachable db →
  t ∈ todoapp_task db →
  HttpRequest.user request = Some u →
  HttpRequest.method request = GET →
  handle (tasks_detail (Task.pk t)) request db
  = (TemplateResponse "todoapp/task.html" (object_context t t), db)
  ∧ (∀ t', t' ∈ todoapp_task db → Task.pk t' = Task.pk t → t' = t)
  ∧ Task.pk t < todoapp_task_seq db.
Proof.
  intros Hwf%reachable_wf Ht Hu Hm.
  assert (get_object (Task.pk t) db = Some t) as Hobj.
  { destruct Hwf as [Hs _]. by apply get_pk_sorted. }
  split; [|split].
  - unfold_views. by rewrite Hu, Hm, Hobj.
  - intros t' Ht' Hk. by apply (wf_key_unique db (Task.pk t)).
  - destruct Hwf as [_ Hb]. rewrite Forall_forall in Hb. by apply Hb.
Qed.

Lemma stored_task_is_found_by_its_key_witness :
  let request := HttpRequest.mk GET "/task/1/" (Some otheruser) [] 200 in
  handle (tasks_detail 1) request test_db
  = (TemplateResponse "todoapp/task.html" (object_context task_1 task_1),
     test_db)
  ∧ (∀ t', t' ∈ todoapp_task test_db → Task.pk t' = Task.pk task_1 →
           t' = task_1)
  ∧ Task.pk task_1 < todoapp_task_seq test_db.
Proof.
  refine (stored_task_is_found_by_its_key otheruser task_1
            (HttpRequest.mk GET "/task/1/" (Some otheruser) [] 200)
            test_db test_db_reachable _ eq_refl eq_refl).
  vm_compute. left.
Defined.

(** X16: the model manager stores the row it returns, with the next key
    of the sequence and the values given, and the row is found by its
    key; a status given is stored as it is, declared choice or not: the
    choices are checked by the forms of the views only. *)
Theorem Task_objects_create_stores_as_given
    (now : N) (kw : TaskKwargs) (status : string) (db : Database) :
  wf db →
  kw_status kw = Some status →
  let task := (Task_objects_create now kw db).1 in
  let db' := (Task_objects_create now kw db).2 in
  get_object (Task.pk task) db' = Some task
  ∧ Task.pk task = todoapp_task_seq db
  ∧ get_object (Task.pk task) db = None
  ∧ Task.status task = status
  ∧ Task.user task = User.pk <$> kw_user kw
  ∧ Task.__str__ task = kw_title kw
  ∧ Task.created task = now
  ∧ (∀ j, j ≠ Task.pk task → get_object j db' = get_object j db)
  ∧ wf db'.
Proof.
  intros Hwf Hstatus. cbv zeta. unfold Task_objects_create.
  split; [by apply get_object_insert_task|]. split; [done|].
  split; [by apply get_object_seq_None|].
  split; [simpl; by rewrite Hstatus|]. split; [done|]. split; [done|].
  split; [done|]. split; [|by apply wf_insert_task].
  intros j Hj. by apply get_object_insert_task_ne.
Qed.

Lemma Task_objects_create_stores_as_given_witness :
  let kw := mkTaskKwargs (Some testuser) None None (Some "Archived") None in
  let task := (Task_objects_create 200 kw test_db).1 in
  let db' := (Task_objects_create 200 kw test_db).2 in
  get_object (Task.pk task) db' = Some task
  ∧ Task.pk task = todoapp_task_seq test_db
  ∧ get_object (Task.pk task) test_db = None
  ∧ Task.status task = "Archived"
  ∧ Task.user task = User.pk <$> kw_user kw
  ∧ Task.__str__ task = kw_title kw
  ∧ Task.created task = 200
  ∧ (∀ j, j ≠ Task.pk task → get_object j db' = get_object j test_db)
  ∧ wf db'.
Proof.
  exact (Task_objects_create_stores_as_given 200
           (mkTaskKwargs (Some testuser) None None (Some "Archived") None)
           "Archived" test_db (reachable_wf _ test_db_reachable) eq_refl).
Defined.
